(** * OME-TIFF batch converter: a shallow embedding of [ome_tiff_batch_gui_v2.py]

    The development follows the order of the Python module: the metadata
    reader [get_mag], the reduction policy [calculate_reduction_factor], the
    OME-TIFF emitter [create_ome_bigtiff_pyramid], the HDF5 emitter
    [create_hdf5_pyramid] with [create_bdv_xml], and the per-file
    orchestrator [process_mrc_file].

    Conventions.
    - Python integers are [Z].
    - Python floats are idealised as exact rationals [Q]: rounding of
      binary64 arithmetic is not modelled, and neither are [nan] and [inf].
    - A function that may raise returns a [result]; a function that prints
      or touches the folder is a computation in the monad [M].
    - The libraries are taken at their word: the checks [ome_types] and
      [h5py] run on the values they are given are not modelled, and the
      text of an exception raised by the interpreter is a fixed string. *)

From Stdlib Require Import ZArith QArith List String Ascii Bool Lia DecimalString.
Import ListNotations.

Local Open Scope string_scope.
Local Open Scope Z_scope.

(** ** Exceptions and results *)

Inductive exn : Type :=
| FileNotFoundError
| ValueError (msg : string)
| IndexError
| ZeroDivisionError
| RuntimeError (msg : string)
| OSError (msg : string).

Inductive result (A : Type) : Type :=
| Ok (a : A)
| Raise (e : exn)
| NoReturn.

Arguments Ok {A} a.
Arguments Raise {A} e.
Arguments NoReturn {A}.

(** ** Integer helpers *)

(** [ceil (a / b)] for a positive divisor, as in [-(-a // b)]. *)
Definition cdiv (a b : Z) : Z := - ((- a) / b).

(** [len(range(0, n, f))]: the length of an axis of extent [n] after the
    slice [::f]. *)
Definition strided_len (n f : Z) : Z := Z.max 0 (cdiv n f).

(** ** Reduction policy *)

(** [int(np.ceil(np.sqrt(p / b)))] in exact arithmetic.  Division of two
    Python integers raises on a zero divisor; a negative quotient has no
    real square root and the conversion of [nan] to [int] raises. *)
Definition ceil_sqrt_ratio (p b : Z) : result Z :=
  if b =? 0 then Raise ZeroDivisionError
  else if Z.sgn p * Z.sgn b <? 0
       then Raise (ValueError "cannot convert float NaN to integer")
       else Ok (Z.sqrt_up (cdiv (Z.abs p) (Z.abs b))).

Definition calculate_reduction_factor (image_shape : list Z)
    (target_pixels : Z) : result Z :=
  match image_shape with
  | s0 :: s1 :: _ =>
      let current_pixels := s0 * s1 in
      if current_pixels <=? target_pixels then Ok 1
      else ceil_sqrt_ratio current_pixels target_pixels
  | _ => Raise IndexError
  end.

Definition default_target_pixels : Z := 1000000000.

(** ** Strings, as the metadata reader uses them *)

(** [c.isspace()] on the ASCII range. *)
Definition is_space (c : ascii) : bool :=
  let n := nat_of_ascii c in
  ((9 <=? n) && (n <=? 13) || (28 <=? n) && (n <=? 32))%nat.

Fixpoint lstrip (s : string) : string :=
  match s with
  | String c s' => if is_space c then lstrip s' else s
  | EmptyString => EmptyString
  end.

Fixpoint rstrip (s : string) : string :=
  match s with
  | EmptyString => EmptyString
  | String c s' =>
      match rstrip s' with
      | EmptyString => if is_space c then EmptyString else String c EmptyString
      | r => String c r
      end
  end.

(** [s.strip()] *)
Definition strip (s : string) : string := rstrip (lstrip s).

(** [key in s] *)
Fixpoint contains (key s : string) : bool :=
  prefix key s ||
  match s with
  | EmptyString => false
  | String _ s' => contains key s'
  end.

(** [s.split(sep)] for a non-empty separator: occurrences are taken from
    left to right and do not overlap.  [skip] counts the characters of a
    separator still to be dropped, [cur] is the piece being collected. *)
Fixpoint split_go (sep : string) (skip : nat) (cur s : string) : list string :=
  match s with
  | EmptyString => [cur]
  | String c s' =>
      match skip with
      | S k => split_go sep k cur s'
      | O =>
          if prefix sep s
          then cur :: split_go sep (String.length sep - 1) EmptyString s'
          else split_go sep O (cur ++ String c EmptyString)%string s'
      end
  end.

Definition split (sep s : string) : list string := split_go sep 0 EmptyString s.

(** [str(i)] for an integer. *)
Definition str_int (i : Z) : string :=
  DecimalString.NilZero.string_of_int (Z.to_int i).

(** ** Paths

    All files of one run live in the folder of the input file, so a path is
    the file name inside that folder. *)

Fixpoint rfind_dot (s : string) : option nat :=
  match s with
  | EmptyString => None
  | String c s' =>
      match rfind_dot s' with
      | Some i => Some (S i)
      | None => if Ascii.eqb c "." then Some O else None
      end
  end.

(** [PurePath.suffix]: the last dot starts the suffix unless it is the first
    or the last character of the name. *)
Definition path_suffix (name : string) : string :=
  match rfind_dot name with
  | Some i =>
      if ((0 <? i) && (i <? String.length name - 1))%nat
      then substring i (String.length name - i) name
      else EmptyString
  | None => EmptyString
  end.

(** [PurePath.stem] *)
Definition path_stem (name : string) : string :=
  match rfind_dot name with
  | Some i =>
      if ((0 <? i) && (i <? String.length name - 1))%nat
      then substring 0 i name
      else name
  | None => name
  end.

(** [path.with_suffix(suffix)] *)
Definition with_suffix (name suffix : string) : string :=
  (path_stem name ++ suffix)%string.

(** ** Rasters *)

(** A numeric sample.  The program only moves samples around. *)
Definition sample : Type := Z.

(** A numpy array: element type, shape, and the sample at each index. *)
Record ndarray : Type := {
  dtype : string;
  shape : list Z;
  at_index : list Z -> sample
}.

Definition ndim (a : ndarray) : Z := Z.of_nat (List.length (shape a)).

(** [a.shape[k]] *)
Definition shape_at (k : nat) (a : ndarray) : result Z :=
  match nth_error (shape a) k with
  | Some d => Ok d
  | None => Raise IndexError
  end.

(** [min(a.shape)] *)
Definition min_shape (a : ndarray) : Z :=
  match shape a with
  | d :: ds => fold_left Z.min ds d
  | [] => 0
  end.

(** [a[0]]: the first plane of a stack. *)
Definition first_plane (a : ndarray) : result ndarray :=
  match shape a with
  | n :: rest =>
      if 0 <? n
      then Ok {| dtype := dtype a; shape := rest;
                 at_index := fun ix => at_index a (0 :: ix) |}
      else Raise IndexError
  | [] => Raise IndexError
  end.

(** [if a.ndim == 3: a = a[0]] *)
Definition first_plane_if_3d (a : ndarray) : result ndarray :=
  if ndim a =? 3 then first_plane a else Ok a.

(** [a[::f, ::f]] for a step [f >= 1]: every [f]-th row and column. *)
Definition stride2 (f : Z) (a : ndarray) : result ndarray :=
  match shape a with
  | n0 :: n1 :: rest =>
      Ok {| dtype := dtype a;
            shape := strided_len n0 f :: strided_len n1 f :: rest;
            at_index := fun ix =>
              match ix with
              | i :: j :: r => at_index a (f * i :: f * j :: r)
              | _ => at_index a ix
              end |}
  | _ => Raise IndexError
  end.

(** ** Output documents *)

(** The OME model built through [ome_types]. *)
Record Channel : Type := {
  channel_id : string;
  channel_name : string;
  samples_per_pixel : Z
}.

Record Pixels : Type := {
  dimension_order : string;
  pixels_type : string;
  size_x : Z;
  size_y : Z;
  size_z : Z;
  size_c : Z;
  size_t : Z;
  physical_size_x : Q;
  physical_size_y : Q;
  channels : list Channel;
  pixels_id : string
}.

Record Image : Type := {
  image_name : string;
  image_id : string;
  pixels : Pixels
}.

Record OME : Type := { images : list Image }.

(** One [TiffWriter.write] call.  [description] holds the OME document that
    [ome.to_xml()] serialises. *)
Record tiff_page : Type := {
  page_data : ndarray;
  subifds : option Z;
  photometric : string;
  tile : Z * Z;
  compression : string;
  description : option OME
}.

Record tiff_file : Type := {
  bigtiff : bool;
  pages : list tiff_page
}.

(** An HDF5 file as [h5py] builds it. *)
Inductive attr_value : Type :=
| AStr (s : string)
| ANum (q : Q).

Inductive h5_data : Type :=
| Grid (a : ndarray)
| Vector (v : list Q).

(** One axis of a dataset: its label and the scales attached to it. *)
Record h5_dim : Type := {
  dim_label : string;
  dim_scales : list string
}.

Record h5_dataset : Type := {
  ds_data : h5_data;
  ds_compression : option string;
  ds_chunks : bool;
  ds_attrs : list (string * attr_value);
  ds_dims : list h5_dim
}.

Record h5_file : Type := {
  datasets : list (string * h5_dataset);
  file_attrs : list (string * attr_value)
}.

(** The SpimData document of [create_bdv_xml], element by element. *)
Record ViewSetup : Type := {
  setup_id : Z;
  setup_name : string;
  setup_size : Z * Z * Z;
  voxel_unit : string;
  voxel_size : Q * Q * Q;
  setup_channel : Z
}.

Record ViewRegistration : Type := {
  reg_timepoint : Z;
  reg_setup : Z;
  transform_type : string;
  affine : list Q
}.

Record SpimData : Type := {
  spim_version : string;
  base_path_type : string;
  base_path : string;
  loader_format : string;
  hdf5_type : string;
  hdf5 : string;
  view_setups : list ViewSetup;
  channel_attributes : list (Z * string);
  timepoints_type : string;
  timepoints_first : Z;
  timepoints_last : Z;
  view_registrations : list ViewRegistration
}.

(** ** The folder and the trace of a run *)

Inductive content : Type :=
| MrcFile (data : ndarray)
| TextFile (lines : list string)
| TiffFile (t : tiff_file)
| H5File (h : h5_file)
| XmlFile (x : SpimData)
| Binary.

Definition disk : Type := list (string * content).

Inductive event : Type :=
| Printed (msg : string)
| Wrote (path : string) (c : content)
| Removed (path : string).

(** ** What the program takes from its environment

    - [py_float]: Python's [float(s)] on a string, [None] for [ValueError];
    - [resample]: the samples [skimage.transform.pyramid_reduce] computes
      (Gaussian smoothing followed by a resize);
    - [cygwin_path]: [windows_to_cygwin_path], which depends on how the
      platform resolves a path and names its drive, [None] when the path has
      no drive letter and [drive[0]] raises;
    - [shell]: the effect of a command run through Cygwin's bash on the
      files of the folder, with its return code. *)
Class Externals : Type := {
  py_float : string -> option Q;
  resample : ndarray -> list Z -> sample;
  cygwin_path : string -> option string;
  shell : string -> disk -> disk * Z
}.

(** ** Computations

    A computation starts from the files of the folder and ends with the
    files it leaves, the events it caused, and a value, an exception, or no
    return at all.  Progress messages, which carry formatted numbers, are
    left out of the trace; warnings and error reports are in it. *)

Record run (A : Type) : Type := {
  final : disk;
  trace : list event;
  value : result A
}.

Arguments final {A} r.
Arguments trace {A} r.
Arguments value {A} r.

Definition M (A : Type) : Type := disk -> run A.

Definition ret {A : Type} (a : A) : M A :=
  fun d => {| final := d; trace := []; value := Ok a |}.

Definition lift {A : Type} (r : result A) : M A :=
  fun d => {| final := d; trace := []; value := r |}.

Definition raise {A : Type} (e : exn) : M A := lift (Raise e).

Definition bind {A B : Type} (m : M A) (k : A -> M B) : M B :=
  fun d =>
    let r := m d in
    match value r with
    | Ok a =>
        let r' := k a (final r) in
        {| final := final r'; trace := trace r ++ trace r'; value := value r' |}
    | Raise e => {| final := final r; trace := trace r; value := Raise e |}
    | NoReturn => {| final := final r; trace := trace r; value := NoReturn |}
    end.

Notation "x <- m ;; k" := (bind m (fun x => k))
  (at level 61, m at next level, right associativity).
Notation "m ;; k" := (bind m (fun _ => k))
  (at level 61, right associativity).

(** [try: m except Exception as e: handler e] *)
Definition try_except {A : Type} (m : M A) (handler : exn -> M A) : M A :=
  fun d =>
    let r := m d in
    match value r with
    | Raise e =>
        let r' := handler e (final r) in
        {| final := final r'; trace := trace r ++ trace r'; value := value r' |}
    | _ => r
    end.

Definition print (msg : string) : M unit :=
  fun d => {| final := d; trace := [Printed msg]; value := Ok tt |}.

Definition lookup (path : string) (d : disk) : option content :=
  match find (fun p => String.eqb (fst p) path) d with
  | Some p => Some (snd p)
  | None => None
  end.

Definition delete (path : string) (d : disk) : disk :=
  filter (fun p => negb (String.eqb (fst p) path)) d.

(** [path.exists()] *)
Definition path_exists (path : string) : M bool :=
  fun d => {| final := d; trace := [];
              value := Ok (match lookup path d with Some _ => true | None => false end) |}.

(** Creating or replacing a file. *)
Definition write_file (path : string) (c : content) : M unit :=
  fun d => {| final := (path, c) :: delete path d; trace := [Wrote path c];
              value := Ok tt |}.

(** [os.remove(path)] *)
Definition os_remove (path : string) : M unit :=
  fun d =>
    match lookup path d with
    | Some _ => {| final := delete path d; trace := [Removed path]; value := Ok tt |}
    | None => {| final := d; trace := []; value := Raise FileNotFoundError |}
    end.

(** [folder.glob(prefix + '*')]: the names that start with [prefix]. *)
Definition glob_prefix (pre : string) : M (list string) :=
  fun d => {| final := d; trace := [];
              value := Ok (filter (prefix pre) (map fst d)) |}.

(** [mrcfile.open(path, permissive=True)] followed by reading [mrc.data]. *)
Definition mrc_open (path : string) : M ndarray :=
  fun d =>
    {| final := d; trace := [];
       value := match lookup path d with
                | Some (MrcFile a) => Ok a
                | Some _ => Raise (ValueError "not an MRC file")
                | None => Raise FileNotFoundError
                end |}.

(** [open(path, 'r', encoding='utf-8')] and the lines of the file. *)
Definition read_lines (path : string) : M (list string) :=
  fun d =>
    {| final := d; trace := [];
       value := match lookup path d with
                | Some (TextFile ls) => Ok ls
                | Some _ => Raise (ValueError "cannot decode as utf-8")
                | None => Raise FileNotFoundError
                end |}.

Fixpoint for_each {A : Type} (xs : list A) (body : A -> M unit) : M unit :=
  match xs with
  | [] => ret tt
  | x :: xs' => body x ;; for_each xs' body
  end.

(** ** Metadata reader *)

Definition msg_no_float : string := "Could not convert value to float.".
Definition msg_no_line : string := "No line with 'PixelSpacing =' found.".
Definition msg_not_found (path : string) : string :=
  ("File not found: " ++ path)%string.

(** The [for linha in f] loop of [get_mag]. *)
Fixpoint scan_lines `{Externals} (lines : list string) : M (option Q) :=
  match lines with
  | [] => print msg_no_line ;; ret None
  | linha :: rest =>
      if contains "PixelSpacing" linha then
        let partes := split " = " (strip linha) in
        if (List.length partes =? 2)%nat then
          match py_float (strip (nth 1 partes EmptyString)) with
          | Some v => ret (Some v)
          | None => print msg_no_float ;; ret None
          end
        else scan_lines rest
      else scan_lines rest
  end.

(** A line on which the loop returns: it contains the key and splits into
    exactly two parts around [" = "]. *)
Definition is_key_line (linha : string) : bool :=
  contains "PixelSpacing" linha &&
  (List.length (split " = " (strip linha)) =? 2)%nat.

(** The text handed to [float] on such a line. *)
Definition value_part (linha : string) : string :=
  strip (nth 1 (split " = " (strip linha)) EmptyString).

(** What the loop does on a line on which it returns. *)
Definition decide_line `{Externals} (linha : string) : M (option Q) :=
  match py_float (value_part linha) with
  | Some v => ret (Some v)
  | None => print msg_no_float ;; ret None
  end.

Definition get_mag `{Externals} (ficheiro_mdoc : string) : M (option Q) :=
  try_except
    (lines <- read_lines ficheiro_mdoc ;; scan_lines lines)
    (fun e =>
       match e with
       | FileNotFoundError =>
           print (msg_not_found ficheiro_mdoc) ;; ret None
       | _ => raise e
       end).

(** ** Pyramid builder *)

(** The shape of [pyramid_reduce(a, downscale=2)]: scikit-image sizes the
    output as [ceil(d / 2)] along every axis.  The element type is restored
    by [.astype(base.dtype)]. *)
Definition pyramid_reduce `{Externals} (a : ndarray) : ndarray :=
  {| dtype := dtype a;
     shape := map (fun d => cdiv d 2) (shape a);
     at_index := resample a |}.

(** [k] successive reductions. *)
Fixpoint iter_reduce `{Externals} (k : nat) (a : ndarray) : ndarray :=
  match k with
  | O => a
  | S k' => iter_reduce k' (pyramid_reduce a)
  end.

(** The [while min(current.shape) >= min_size * 2] loop, with the list
    [pyramid] and the image [current] as its state.  [None] when the fuel
    runs out before the loop ends. *)
Fixpoint pyramid_loop `{Externals} (fuel : nat) (min_size : Z)
    (pyramid : list ndarray) (current : ndarray) : option (list ndarray) :=
  match fuel with
  | O => None
  | S fuel' =>
      if min_size * 2 <=? min_shape current then
        let current' := pyramid_reduce current in
        pyramid_loop fuel' min_size (pyramid ++ [current']) current'
      else Some pyramid
  end.

(** Fuel that covers every halving of the smaller dimension. *)
Definition pyramid_fuel (base : ndarray) : nat :=
  S (Z.to_nat (Z.log2_up (min_shape base))).

Definition build_pyramid `{Externals} (min_size : Z) (base : ndarray)
    : result (list ndarray) :=
  match pyramid_loop (pyramid_fuel base) min_size [base] base with
  | Some pyramid => Ok pyramid
  | None => NoReturn
  end.

(** ** OME-TIFF emitter *)

(** The [if reduction_factor > 1] block: the base that enters the pyramid
    and the pixel spacing that goes with it. *)
Definition apply_reduction (reduction_factor : Z) (pixel_spacing_angstrom : Q)
    (base : ndarray) : result (ndarray * Q) :=
  if 1 <? reduction_factor then
    match stride2 reduction_factor base with
    | Ok reduced =>
        Ok (reduced, (pixel_spacing_angstrom * inject_Z reduction_factor)%Q)
    | Raise e => Raise e
    | NoReturn => NoReturn
    end
  else Ok (base, pixel_spacing_angstrom).

(** [a.shape[k]] where the caller has checked the rank. *)
Definition dim (k : nat) (a : ndarray) : Z := nth k (shape a) 0.

Definition ome_metadata (name : string) (base : ndarray) (pixel_size_um : Q)
    : OME :=
  {| images :=
       [ {| image_name := name;
            image_id := "Image:0";
            pixels :=
              {| dimension_order := "XYCZT";
                 pixels_type := dtype base;
                 size_x := dim 1 base;
                 size_y := dim 0 base;
                 size_z := 1;
                 size_c := 1;
                 size_t := 1;
                 physical_size_x := pixel_size_um;
                 physical_size_y := pixel_size_um;
                 channels :=
                   [ {| channel_id := "Channel:0:0";
                        channel_name := "channel_0";
                        samples_per_pixel := 1 |} ];
                 pixels_id := "Pixels:0" |} |} ] |}.

(** The pages written inside [with tifffile.TiffWriter(...)]. *)
Definition tiff_pages (pyramid : list ndarray) (tile_size : Z)
    (compression : string) (ome : OME) : list tiff_page :=
  match pyramid with
  | [] => []
  | level0 :: levels =>
      {| page_data := level0;
         subifds := Some (Z.of_nat (List.length pyramid) - 1);
         photometric := "minisblack";
         tile := (tile_size, tile_size);
         compression := compression;
         description := Some ome |}
      :: map (fun level =>
                {| page_data := level;
                   subifds := None;
                   photometric := "minisblack";
                   tile := (tile_size, tile_size);
                   compression := compression;
                   description := None |}) levels
  end.

(** Everything [create_ome_bigtiff_pyramid] computes between reading the
    input and writing the output. *)
Definition ome_tiff_of `{Externals} (name : string) (base0 : ndarray)
    (pixel_spacing_angstrom : Q) (min_size tile_size : Z)
    (compression : string) (reduction_factor : Z) : result tiff_file :=
  if negb (ndim base0 =? 2) then Raise (ValueError "Image must be 2D.")
  else
    match apply_reduction reduction_factor pixel_spacing_angstrom base0 with
    | Ok (base, adjusted_pixel_spacing) =>
        match build_pyramid min_size base with
        | Ok pyramid =>
            let pixel_size_um := (adjusted_pixel_spacing * (1 # 10000))%Q in
            let ome := ome_metadata name base pixel_size_um in
            Ok {| bigtiff := true;
                  pages := tiff_pages pyramid tile_size compression ome |}
        | Raise e => Raise e
        | NoReturn => NoReturn
        end
    | Raise e => Raise e
    | NoReturn => NoReturn
    end.

Definition create_ome_bigtiff_pyramid `{Externals}
    (mrc_base_path output_path : string) (pixel_spacing_angstrom : Q)
    (min_size tile_size : Z) (compression : string) (reduction_factor : Z)
    : M unit :=
  base <- mrc_open mrc_base_path ;;
  t <- lift (ome_tiff_of mrc_base_path base pixel_spacing_angstrom
               min_size tile_size compression reduction_factor) ;;
  write_file output_path (TiffFile t).

Definition default_min_size : Z := 512.
Definition default_tile_size : Z := 256.
Definition default_compression : string := "deflate".

(** ** HDF5 emitter *)

Definition data_rank (d : h5_data) : nat :=
  match d with
  | Grid a => List.length (shape a)
  | Vector _ => 1%nat
  end.

(** [f.create_dataset(name, data=..., compression=..., chunks=...)] *)
Definition h5_create (name : string) (data : h5_data)
    (compression : option string) (chunks : bool) (f : h5_file) : h5_file :=
  {| datasets :=
       datasets f ++
       [ (name,
          {| ds_data := data;
             ds_compression := compression;
             ds_chunks := chunks;
             ds_attrs := [];
             ds_dims := repeat {| dim_label := EmptyString; dim_scales := [] |}
                               (data_rank data) |}) ];
     file_attrs := file_attrs f |}.

Definition h5_update (name : string) (g : h5_dataset -> h5_dataset)
    (f : h5_file) : h5_file :=
  {| datasets :=
       map (fun p => if String.eqb (fst p) name then (fst p, g (snd p)) else p)
           (datasets f);
     file_attrs := file_attrs f |}.

Definition h5_get (name : string) (f : h5_file) : option h5_dataset :=
  match find (fun p => String.eqb (fst p) name) (datasets f) with
  | Some p => Some (snd p)
  | None => None
  end.

Fixpoint update_nth {A : Type} (k : nat) (g : A -> A) (l : list A) : list A :=
  match l, k with
  | [], _ => []
  | x :: l', O => g x :: l'
  | x :: l', S k' => x :: update_nth k' g l'
  end.

(** [dset.attrs[key] = v] *)
Definition h5_set_attr (name key : string) (v : attr_value) : h5_file -> h5_file :=
  h5_update name (fun ds =>
    {| ds_data := ds_data ds; ds_compression := ds_compression ds;
       ds_chunks := ds_chunks ds;
       ds_attrs := ds_attrs ds ++ [(key, v)];
       ds_dims := ds_dims ds |}).

Definition on_dim (name : string) (axis : nat) (g : h5_dim -> h5_dim)
    : h5_file -> h5_file :=
  h5_update name (fun ds =>
    {| ds_data := ds_data ds; ds_compression := ds_compression ds;
       ds_chunks := ds_chunks ds; ds_attrs := ds_attrs ds;
       ds_dims := update_nth axis g (ds_dims ds) |}).

(** [dset.dims[axis].attach_scale(scale)] *)
Definition h5_attach_scale (name : string) (axis : nat) (scale : string)
    : h5_file -> h5_file :=
  on_dim name axis (fun dm =>
    {| dim_label := dim_label dm; dim_scales := dim_scales dm ++ [scale] |}).

(** [dset.dims[axis].label = label] *)
Definition h5_set_label (name : string) (axis : nat) (label : string)
    : h5_file -> h5_file :=
  on_dim name axis (fun dm =>
    {| dim_label := label; dim_scales := dim_scales dm |}).

(** [f.attrs[key] = v] *)
Definition h5_set_file_attr (key : string) (v : attr_value) (f : h5_file)
    : h5_file :=
  {| datasets := datasets f; file_attrs := file_attrs f ++ [(key, v)] |}.

(** [dset.shape[k]] of a dataset of the file. *)
Definition dset_dim (f : h5_file) (name : string) (k : nat) : Z :=
  match h5_get name f with
  | Some {| ds_data := Grid a |} => dim k a
  | Some {| ds_data := Vector v |} =>
      match k with O => Z.of_nat (List.length v) | _ => 0 end
  | None => 0
  end.

(** [np.arange(n) * step] *)
Definition arange_times (n : Z) (step : Q) : list Q :=
  map (fun j => (inject_Z (Z.of_nat j) * step)%Q) (seq 0 (Z.to_nat n)).

(** The body of [for i, dset in enumerate([dset0, dset1, dset2])]. *)
Definition add_scales (pixel_size_nm : Q) (f : h5_file) (i : Z) (dset : string)
    : h5_file :=
  let scale_factor := 2 ^ i in
  let current_pixel_size := (pixel_size_nm * inject_Z scale_factor)%Q in
  let x_scale := ("x_scale_res" ++ str_int i)%string in
  let y_scale := ("y_scale_res" ++ str_int i)%string in
  let f := h5_create x_scale
             (Vector (arange_times (dset_dim f dset 1) current_pixel_size))
             None false f in
  let f := h5_set_attr x_scale "units" (AStr "nm") f in
  let f := h5_set_attr x_scale "name" (AStr "x") f in
  let f := h5_create y_scale
             (Vector (arange_times (dset_dim f dset 0) current_pixel_size))
             None false f in
  let f := h5_set_attr y_scale "units" (AStr "nm") f in
  let f := h5_set_attr y_scale "name" (AStr "y") f in
  let f := h5_attach_scale dset 0 y_scale f in
  let f := h5_attach_scale dset 1 x_scale f in
  let f := h5_set_label dset 0 "y" f in
  let f := h5_set_label dset 1 "x" f in
  f.

Fixpoint enumerate_from {A : Type} (i : Z) (l : list A) : list (Z * A) :=
  match l with
  | [] => []
  | x :: l' => (i, x) :: enumerate_from (i + 1) l'
  end.

(** The contents of the [with h5py.File(output_path, 'w') as f] block. *)
Definition h5_contents (base half quarter : ndarray) (mag : Q)
    (compression : string) : h5_file :=
  let pixel_size_nm := (mag / 10)%Q in
  let pixel_size_um := (pixel_size_nm / 1000)%Q in
  let f := {| datasets := []; file_attrs := [] |} in
  let f := h5_create "res0" (Grid base) (Some compression) true f in
  let f := h5_create "res1" (Grid half) (Some compression) true f in
  let f := h5_create "res2" (Grid quarter) (Some compression) true f in
  let f := fold_left (fun f p => add_scales pixel_size_nm f (fst p) (snd p))
             (enumerate_from 0 ["res0"; "res1"; "res2"]) f in
  let f := h5_set_file_attr "source" (AStr "SerialEM .mdoc") f in
  let f := h5_set_file_attr "pixel_size_nm" (ANum pixel_size_nm) f in
  let f := h5_set_file_attr "pixel_size_um" (ANum pixel_size_um) f in
  let f := h5_set_file_attr "unit" (AStr "nm") f in
  f.

(** The names of the datasets of level [i]. *)
Definition level_name (i : Z) : string := ("res" ++ str_int i)%string.
Definition x_scale_name (i : Z) : string := ("x_scale_res" ++ str_int i)%string.
Definition y_scale_name (i : Z) : string := ("y_scale_res" ++ str_int i)%string.

(** ** BigDataViewer descriptor *)

Definition bdv_document (h5_filename : string) (image_shape : list Z)
    (pixel_size_um : Q) : result SpimData :=
  let pixel_size_x := pixel_size_um in
  let pixel_size_y := pixel_size_um in
  let pixel_size_z := pixel_size_um in
  let affine_matrix :=
    [ pixel_size_x; 0; 0; 0;
      0; pixel_size_y; 0; 0;
      0; 0; pixel_size_z; 0 ]%Q in
  match image_shape with
  | s0 :: s1 :: _ =>
      Ok {| spim_version := "0.2";
            base_path_type := "relative";
            base_path := ".";
            loader_format := "bdv.hdf5";
            hdf5_type := "relative";
            hdf5 := h5_filename;
            view_setups :=
              [ {| setup_id := 0;
                   setup_name := "channel 1";
                   setup_size := (s1, s0, 1);
                   voxel_unit := "μm";
                   voxel_size := (pixel_size_x, pixel_size_y, pixel_size_z);
                   setup_channel := 1 |} ];
            channel_attributes := [ (1, "1") ];
            timepoints_type := "range";
            timepoints_first := 0;
            timepoints_last := 0;
            view_registrations :=
              [ {| reg_timepoint := 0;
                   reg_setup := 0;
                   transform_type := "affine";
                   affine := affine_matrix |} ] |}
  | _ => Raise IndexError
  end.

(** Entry [(r, c)] of a 3 x 4 matrix stored row by row. *)
Definition matrix_entry (m : list Q) (r c : nat) : Q := nth (4 * r + c) m 0%Q.

Definition create_bdv_xml (xml_path h5_filename : string)
    (image_shape : list Z) (pixel_size_um : Q) : M unit :=
  x <- lift (bdv_document h5_filename image_shape pixel_size_um) ;;
  write_file xml_path (XmlFile x).

Definition create_hdf5_pyramid (mrc_base_path output_path : string) (mag : Q)
    (compression : string) : M unit :=
  base0 <- mrc_open mrc_base_path ;;
  base <- lift (first_plane_if_3d base0) ;;
  half <- lift (stride2 2 base) ;;
  quarter <- lift (stride2 4 base) ;;
  let pixel_size_nm := (mag / 10)%Q in
  let pixel_size_um := (pixel_size_nm / 1000)%Q in
  write_file output_path (H5File (h5_contents base half quarter mag compression)) ;;
  let xml_path := with_suffix output_path ".xml" in
  create_bdv_xml xml_path output_path (shape base) pixel_size_um.

(** ** Batch orchestrator *)

(** [run_cygwin_command]: a non-zero return code raises. *)
Definition run_cygwin_command `{Externals} (command : string) : M unit :=
  fun d =>
    let out := shell command d in
    {| final := fst out; trace := [];
       value := if snd out =? 0 then Ok tt
                else Raise (RuntimeError ("Command failed: " ++ command)) |}.

(** [str(e)] *)
Definition exn_str (e : exn) : string :=
  match e with
  | FileNotFoundError => "No such file or directory"
  | ValueError msg => msg
  | IndexError => "index out of range"
  | ZeroDivisionError => "division by zero"
  | RuntimeError msg => msg
  | OSError msg => msg
  end.

Definition large_image_pixels : Z := 2000000000.

(** The [=== CLEANUP TEMPORARY FILES ===] block. *)
Definition cleanup (cblf : string) : M unit :=
  edges <- glob_prefix "MONTAGE_EDGES" ;;
  for_each (nodup string_dec edges) os_remove ;;
  pieces <- glob_prefix "montage_plf" ;;
  for_each (nodup string_dec pieces) os_remove ;;
  still_there <- path_exists cblf ;;
  if still_there : bool then os_remove cblf else ret tt.

Definition windows_to_cygwin_path `{Externals} (win_path : string) : M string :=
  match cygwin_path win_path with
  | Some p => ret p
  | None => raise IndexError
  end.

(** The two stitcher commands. *)
Definition stitch `{Externals} (pasta name blf : string) : M unit :=
  fcigpath <- windows_to_cygwin_path pasta ;;
  cigpath <- windows_to_cygwin_path name ;;
  run_cygwin_command
    ("cd " ++ fcigpath ++ "; extractpieces " ++ name ++ " montage_plf") ;;
  run_cygwin_command
    ("cd " ++ fcigpath ++ "; blendmont -imi " ++ name
       ++ " -pli montage_plf -imo " ++ blf ++ " -roo MONTAGE_EDGES").

(** From [# ALWAYS create original TIFF] to the end of the large-image
    branch. *)
Definition emit `{Externals} (create_h5 : bool) (mrc_file cblf : string)
    (mag : Q) (image_shape : list Z) (is_large_image : bool) : M unit :=
  let output_tiff := with_suffix mrc_file ".ome.tif" in
  let output_h5 := with_suffix mrc_file ".h5" in
  let output_tiff_reduced := (path_stem mrc_file ++ "_reduced.ome.tif")%string in
  create_ome_bigtiff_pyramid cblf output_tiff mag
    default_min_size default_tile_size default_compression 1 ;;
  if is_large_image then
    if create_h5 then create_hdf5_pyramid cblf output_h5 mag "gzip"
    else
      reduction_factor <-
        lift (calculate_reduction_factor image_shape default_target_pixels) ;;
      create_ome_bigtiff_pyramid cblf output_tiff_reduced mag
        default_min_size default_tile_size default_compression reduction_factor
  else ret tt.

(** From [# Check if blended file was created] to [return True]. *)
Definition convert `{Externals} (create_h5 : bool) (mrc_file cblf : string)
    (mag : Q) : M bool :=
  blended <- path_exists cblf ;;
  if negb blended then
    print ("Error: Blended file " ++ cblf ++ " was not created") ;;
    ret false
  else
    image_data0 <- mrc_open cblf ;;
    image_data <- lift (first_plane_if_3d image_data0) ;;
    s0 <- lift (shape_at 0 image_data) ;;
    s1 <- lift (shape_at 1 image_data) ;;
    let total_pixels := s0 * s1 in
    let is_large_image := large_image_pixels <? total_pixels in
    emit create_h5 mrc_file cblf mag (shape image_data) is_large_image ;;
    cleanup cblf ;;
    ret true.

(** The body of the [try] in [process_mrc_file]. *)
Definition process_body `{Externals} (create_h5 : bool)
    (pasta mrc_file : string) : M bool :=
  let mdoc_file :=
    with_suffix mrc_file (path_suffix mrc_file ++ ".mdoc")%string in
  has_mdoc <- path_exists mdoc_file ;;
  if negb has_mdoc then
    print ("Warning: No .mdoc file found for " ++ mrc_file) ;; ret false
  else
    mag <- get_mag mdoc_file ;;
    match mag with
    | None =>
        print ("Warning: Could not read pixel size from " ++ mdoc_file) ;;
        ret false
    | Some mag =>
        let stem := path_stem mrc_file in
        let blf := (stem ++ "_blended.mrc")%string in
        let cblf := blf in
        stitch pasta mrc_file blf ;;
        convert create_h5 mrc_file cblf mag
    end.

Definition process_mrc_file `{Externals} (create_h5 : bool)
    (pasta mrc_file : string) : M bool :=
  try_except (process_body create_h5 pasta mrc_file)
    (fun e =>
       print ("Error processing " ++ mrc_file ++ ": " ++ exn_str e) ;;
       ret false).

(** The [for i, mrc_file in enumerate(mrc_files, 1)] loop of [run_batch],
    returning the count [successful]. *)
Fixpoint batch_loop `{Externals} (create_h5 : bool) (pasta : string)
    (mrc_files : list string) (successful : Z) : M Z :=
  match mrc_files with
  | [] => ret successful
  | mrc_file :: rest =>
      ok <- process_mrc_file create_h5 pasta mrc_file ;;
      batch_loop create_h5 pasta rest
        (if ok : bool then successful + 1 else successful)
  end.

(** ** Observations on runs *)

(** No file was removed. *)
Definition removal_free (t : list event) : Prop :=
  forall n, ~ In (Removed n) t.

(** Every file of [d] is still in [d']. *)
Definition keeps (d d' : disk) : Prop :=
  forall n, lookup n d <> None -> lookup n d' <> None.

(** None of the stitcher's intermediate files is left. *)
Definition cleaned (cblf : string) (d : disk) : Prop :=
  forall n, lookup n d <> None ->
    prefix "MONTAGE_EDGES" n = false /\
    prefix "montage_plf" n = false /\
    n <> cblf.

(** A run that returned or raised, removed nothing, and kept the files of
    [base]. *)
Definition settled {A : Type} (base : disk) (r : run A) : Prop :=
  value r <> NoReturn /\ removal_free (trace r) /\ keeps base (final r).

(** A run of the per-file conversion: unless it returned [True] it is
    settled; if it returned [True] its removals come after everything else
    and no intermediate file is left. *)
Definition verdict (cblf : string) (base : disk) (r : run bool) : Prop :=
  value r <> NoReturn /\
  (value r <> Ok true -> removal_free (trace r) /\ keeps base (final r)) /\
  (value r = Ok true ->
   exists emitted removed,
     trace r = (emitted ++ map Removed removed)%list /\
     removal_free emitted /\
     cleaned cblf (final r)).

Definition delete_all (names : list string) (d : disk) : disk :=
  fold_left (fun d n => delete n d) names d.

(** ** A concrete environment for running the model

    Decimal literals for [float], constant samples for the resampler, a
    fixed drive for Cygwin paths, and a stitcher that leaves its piece list,
    its edge files and a given blended image. *)

Definition digit_of (c : ascii) : option Z :=
  let n := Z.of_nat (nat_of_ascii c) in
  if (48 <=? n) && (n <=? 57) then Some (n - 48) else None.

Fixpoint digits_value (acc : Z) (s : string) : option Z :=
  match s with
  | EmptyString => Some acc
  | String c s' =>
      match digit_of c with
      | Some v => digits_value (10 * acc + v) s'
      | None => None
      end
  end.

(** [float] on literals of the form [digits] or [digits.digits]. *)
Definition decimal_float (s : string) : option Q :=
  match split "." (strip s) with
  | [i] =>
      if (String.length i =? 0)%nat then None
      else option_map inject_Z (digits_value 0 i)
  | [i; f] =>
      if (String.length i =? 0)%nat then None
      else
        match digits_value 0 i, digits_value 0 f with
        | Some iv, Some fv =>
            Some (inject_Z iv + inject_Z fv / inject_Z (10 ^ Z.of_nat (String.length f)))%Q
        | _, _ => None
        end
  | _ => None
  end.

Definition toy_shell (blf : string) (blended : option ndarray)
    (command : string) (d : disk) : disk * Z :=
  if contains "extractpieces" command then
    (("montage_plf", Binary) :: delete "montage_plf" d, 0)
  else if contains "blendmont" command then
    let d := ("MONTAGE_EDGES.xef", Binary) :: delete "MONTAGE_EDGES.xef" d in
    let d := ("MONTAGE_EDGES.yef", Binary) :: delete "MONTAGE_EDGES.yef" d in
    match blended with
    | Some a => ((blf, MrcFile a) :: delete blf d, 0)
    | None => (d, 1)
    end
  else (d, 127).

Definition toy (blf : string) (blended : option ndarray) : Externals :=
  {| py_float := decimal_float;
     resample := fun _ _ => 0;
     cygwin_path := fun p => Some ("/cygdrive/c/" ++ p)%string;
     shell := toy_shell blf blended |}.

(** An image of the given shape whose samples are all zero. *)
Definition blank (shp : list Z) : ndarray :=
  {| dtype := "uint8"; shape := shp; at_index := fun _ => 0 |}.

(** An image whose sample at [(i, j)] is [100 * i + j]. *)
Definition ramp (h w : Z) : ndarray :=
  {| dtype := "int16"; shape := [h; w];
     at_index := fun ix =>
       match ix with
       | [i; j] => 100 * i + j
       | _ => 0
       end |}.

(** An environment like [toy] whose shell fails on every command. *)
Definition toy_no_tools : Externals :=
  {| py_float := decimal_float;
     resample := fun _ _ => 0;
     cygwin_path := fun p => Some ("/cygdrive/c/" ++ p)%string;
     shell := fun _ d => (d, 127) |}.

(** ** Locating Cygwin *)

(** What [get_cygwin_bash_path] reads: whether the program runs as a
    PyInstaller executable, the path [os.path.join(sys._MEIPASS, 'cygwin',
    'bin', 'bash.exe')] in that case, and [os.path.exists]. *)
Record host : Type := {
  frozen : bool;
  embedded_bash : string;
  os_path_exists : string -> bool
}.

Definition possible_paths : list string :=
  [ "C:\cygwin\bin\bash.exe";
    "C:\cygwin64\bin\bash.exe";
    "C:\Program Files\Cygwin\bin\bash.exe";
    "C:\Program Files (x86)\Cygwin\bin\bash.exe" ].

(** The [for path in possible_paths] loop and the [raise] after it. *)
Fixpoint first_existing (exists_ : string -> bool) (paths : list string)
    : result string :=
  match paths with
  | [] => Raise FileNotFoundError
  | path :: rest =>
      if exists_ path then Ok path else first_existing exists_ rest
  end.

Definition get_cygwin_bash_path (env : host) : result string :=
  if frozen env && os_path_exists env (embedded_bash env)
  then Ok (embedded_bash env)
  else first_existing (os_path_exists env) possible_paths.

(** ** Path translation

    The string computation of [windows_to_cygwin_path], given what
    [pathlib] returns for the resolved path: its [drive] and its [str]. *)






(** ** The batch

    [run_batch] after [find_mrc_files] has listed the folder: the two early
    exits, the loop, and the summary line. *)
Definition summary (successful total : Z) : string :=
  (String (ascii_of_nat 10)
     ("Batch processing finished! " ++ str_int successful ++ "/"
        ++ str_int total ++ " files processed successfully."))%string.

Definition run_batch `{Externals} (create_h5 : bool) (folder : string)
    (mrc_files : list string) : M unit :=
  match folder with
  | EmptyString => print "Please select a folder."
  | _ =>
      match mrc_files with
      | [] => print "No .mrc files found in the selected folder."
      | _ =>
          successful <- batch_loop create_h5 folder mrc_files 0 ;;
          print (summary successful (Z.of_nat (List.length mrc_files)))
      end
  end.

(** ** Shapes the HDF5 emitter goes through with *)

(** A stack with at least one plane, or any array of two or more
    dimensions that is not a stack. *)
Definition h5_accepts (shp : list Z) : bool :=
  match shp with
  | [n; _; _] => 0 <? n
  | _ :: _ :: _ => true
  | _ => false
  end.

(** * Properties *)

Local Open Scope list_scope.

(** ** The string and path helpers on examples *)

Example strip_ex : strip "  PixelSpacing = 1.5  " = "PixelSpacing = 1.5".
Proof. reflexivity. Qed.

Example split_ex : split " = " "PixelSpacing = 1.5" = ["PixelSpacing"; "1.5"].
Proof. reflexivity. Qed.

Example split_ex2 : split " = " "a = = b = c" = ["a"; "= b"; "c"].
Proof. reflexivity. Qed.

Example str_int_ex : map str_int [0; 1; 2; 17] = ["0"; "1"; "2"; "17"].
Proof. reflexivity. Qed.

Example with_suffix_ex :
  map (fun n => with_suffix n ".h5") ["a.mrc"; "a.b.mrc"; ".mrc"; "a"]
  = ["a.h5"; "a.b.h5"; ".mrc.h5"; "a.h5"].
Proof. reflexivity. Qed.

(** ** Lemmas on ceiling division *)

Lemma cdiv_spec (a b : Z) :
  0 < b -> (cdiv a b - 1) * b < a <= cdiv a b * b.
Proof.
  intros Hb. unfold cdiv.
  pose proof (Z.div_mod (- a) b ltac:(lia)) as Hdm.
  pose proof (Z.mod_pos_bound (- a) b Hb) as Hm.
  nia.
Qed.

Lemma cdiv_le (a b c : Z) : 0 < b -> a <= c * b -> cdiv a b <= c.
Proof.
  intros Hb Hle. pose proof (cdiv_spec a b Hb). nia.
Qed.

Lemma cdiv_ge (a b c : Z) : 0 < b -> (c - 1) * b < a -> c <= cdiv a b.
Proof.
  intros Hb Hlt. pose proof (cdiv_spec a b Hb). nia.
Qed.


(** ** The reduction policy *)




(** The shape [stride2] produces is the one [strided_len] predicts. *)
Lemma stride2_shape (f h w : Z) (a : ndarray) :
  shape a = [h; w] ->
  exists r, stride2 f a = Ok r /\ shape r = [strided_len h f; strided_len w f].
Proof.
  intros Hs. unfold stride2. rewrite Hs. eexists. split; reflexivity.
Qed.




(** ** The pyramid loop *)

Section Pyramid.
Context `{Externals}.

Lemma iter_reduce_succ (k : nat) (a : ndarray) :
  iter_reduce (S k) a = pyramid_reduce (iter_reduce k a).
Proof.
  revert a. induction k as [|k IH]; intros a; [reflexivity|].
  change (iter_reduce (S (S k)) a) with (iter_reduce (S k) (pyramid_reduce a)).
  rewrite IH. reflexivity.
Qed.

Lemma min_shape_2d (a : ndarray) (h w : Z) :
  shape a = [h; w] -> min_shape a = Z.min h w.
Proof. intros Hs. unfold min_shape. rewrite Hs. reflexivity. Qed.

Lemma pyramid_reduce_shape_2d (a : ndarray) (h w : Z) :
  shape a = [h; w] -> shape (pyramid_reduce a) = [cdiv h 2; cdiv w 2].
Proof. intros Hs. simpl. rewrite Hs. reflexivity. Qed.

Lemma cdiv_mono (a b : Z) : a <= b -> cdiv a 2 <= cdiv b 2.
Proof.
  intros Hab. pose proof (cdiv_spec a 2 ltac:(lia)).
  pose proof (cdiv_spec b 2 ltac:(lia)). lia.
Qed.

Lemma min_shape_reduce (a : ndarray) (h w : Z) :
  shape a = [h; w] -> min_shape (pyramid_reduce a) = cdiv (min_shape a) 2.
Proof.
  intros Hs.
  rewrite (min_shape_2d _ _ _ (pyramid_reduce_shape_2d a h w Hs)).
  rewrite (min_shape_2d a h w Hs).
  destruct (Z.le_ge_cases h w) as [L|L].
  - pose proof (cdiv_mono h w L). rewrite !Z.min_l by lia. reflexivity.
  - pose proof (cdiv_mono w h L). rewrite !Z.min_r by lia. reflexivity.
Qed.

(** What a finished loop has built: the levels already in [pyramid], then
    the successive reductions of [current], up to the first one whose
    smaller dimension is below twice the minimum size. *)
Lemma pyramid_loop_spec (fuel : nat) (m : Z) :
  forall (acc : list ndarray) (cur : ndarray) (p : list ndarray),
    pyramid_loop fuel m acc cur = Some p ->
    exists n : nat,
      p = acc ++ map (fun k => iter_reduce (S k) cur) (seq 0 n) /\
      (forall k, (k < n)%nat -> m * 2 <= min_shape (iter_reduce k cur)) /\
      min_shape (iter_reduce n cur) < m * 2.
Proof.
  induction fuel as [|fuel IH]; intros acc cur p Hrun; [discriminate|].
  simpl in Hrun.
  destruct (Z.leb_spec (m * 2) (min_shape cur)) as [Hc|Hc].
  - destruct (IH _ _ _ Hrun) as (n & Hp & Hall & Hlast).
    exists (S n). split; [|split].
    + rewrite Hp, <- app_assoc. f_equal.
      change (seq 0 (S n)) with (0%nat :: seq 1 n).
      rewrite <- seq_shift, map_cons, map_map. reflexivity.
    + intros [|k] Hk; [exact Hc|]. apply (Hall k). lia.
    + exact Hlast.
  - injection Hrun as <-. exists O. split; [|split].
    + simpl. rewrite app_nil_r. reflexivity.
    + intros k Hk. lia.
    + exact Hc.
Qed.

(** With a minimum size of at least 1 the loop ends: [n] halvings bring a
    dimension of at most [2 ^ n] down to 1. *)
Lemma pyramid_loop_terminates (m : Z) (n : nat) :
  1 <= m ->
  forall (acc : list ndarray) (cur : ndarray) (h w : Z),
    shape cur = [h; w] ->
    min_shape cur <= 2 ^ Z.of_nat n ->
    exists p, pyramid_loop (S n) m acc cur = Some p.
Proof.
  intros Hm. induction n as [|n IH]; intros acc cur h w Hs Hb.
  - simpl. change (2 ^ Z.of_nat 0) with 1 in Hb.
    destruct (Z.leb_spec (m * 2) (min_shape cur)); [lia|]. eauto.
  - change (pyramid_loop (S (S n)) m acc cur) with
      (if m * 2 <=? min_shape cur
       then pyramid_loop (S n) m (acc ++ [pyramid_reduce cur]) (pyramid_reduce cur)
       else Some acc).
    destruct (Z.leb_spec (m * 2) (min_shape cur)); [|eauto].
    apply (IH _ _ _ _ (pyramid_reduce_shape_2d cur h w Hs)).
    rewrite (min_shape_reduce cur h w Hs).
    apply cdiv_le; [lia|].
    rewrite Nat2Z.inj_succ, Z.pow_succ_r in Hb by lia. lia.
Qed.

(** With a minimum size of 0 or less the loop never ends on an image
    without negative dimensions. *)
Lemma pyramid_loop_diverges (m : Z) (fuel : nat) :
  m <= 0 ->
  forall (acc : list ndarray) (cur : ndarray) (h w : Z),
    shape cur = [h; w] -> 0 <= h -> 0 <= w ->
    pyramid_loop fuel m acc cur = None.
Proof.
  intros Hm. induction fuel as [|fuel IH]; intros acc cur h w Hs Hh Hw;
    [reflexivity|].
  simpl. rewrite (min_shape_2d cur h w Hs).
  destruct (Z.leb_spec (m * 2) (Z.min h w)); [|lia].
  apply (IH _ _ _ _ (pyramid_reduce_shape_2d cur h w Hs)).
  - pose proof (cdiv_spec h 2 ltac:(lia)). lia.
  - pose proof (cdiv_spec w 2 ltac:(lia)). lia.
Qed.

(** The result does not depend on the fuel, once there is enough of it. *)
Lemma pyramid_loop_fuel (f1 f2 : nat) (m : Z) :
  forall (acc : list ndarray) (cur : ndarray) (p1 p2 : list ndarray),
    pyramid_loop f1 m acc cur = Some p1 ->
    pyramid_loop f2 m acc cur = Some p2 ->
    p1 = p2.
Proof.
  revert f2. induction f1 as [|f1 IH]; intros [|f2] acc cur p1 p2 H1 H2;
    try discriminate.
  simpl in H1, H2.
  destruct (m * 2 <=? min_shape cur).
  - exact (IH _ _ _ _ _ H1 H2).
  - congruence.
Qed.

Lemma pyramid_fuel_enough (a : ndarray) :
  min_shape a <= 2 ^ Z.of_nat (Z.to_nat (Z.log2_up (min_shape a))).
Proof.
  rewrite Z2Nat.id by apply Z.log2_up_nonneg.
  destruct (Z.le_gt_cases (min_shape a) 1) as [L|L].
  - rewrite Z.log2_up_eqn0 by exact L. simpl. exact L.
  - apply Z.log2_up_spec. exact L.
Qed.

Lemma build_pyramid_returns (m : Z) (base : ndarray) (h w : Z) :
  1 <= m -> shape base = [h; w] ->
  exists p, build_pyramid m base = Ok p.
Proof.
  intros Hm Hs. unfold build_pyramid, pyramid_fuel.
  destruct (pyramid_loop_terminates m _ Hm [base] base h w Hs
              (pyramid_fuel_enough base)) as [p Hp].
  rewrite Hp. eauto.
Qed.

Lemma build_pyramid_levels (m : Z) (base : ndarray) (p : list ndarray) :
  build_pyramid m base = Ok p ->
  exists n : nat,
    p = map (fun k => iter_reduce k base) (seq 0 (S n)) /\
    (forall k, (k < n)%nat -> m * 2 <= min_shape (iter_reduce k base)) /\
    min_shape (iter_reduce n base) < m * 2.
Proof.
  unfold build_pyramid. intros Hb.
  destruct (pyramid_loop (pyramid_fuel base) m [base] base) as [q|] eqn:Hrun;
    [|discriminate].
  injection Hb as <-.
  destruct (pyramid_loop_spec _ _ _ _ _ Hrun) as (n & Hp & Hall & Hlast).
  exists n. split; [|split]; try assumption.
  rewrite Hp. change (seq 0 (S n)) with (0%nat :: seq 1 n).
  rewrite <- seq_shift, map_cons, map_map. reflexivity.
Qed.

Lemma nth_error_map_seq {A : Type} (f : nat -> A) (n k : nat) :
  nth_error (map f (seq 0 n)) k = if (k <? n)%nat then Some (f k) else None.
Proof.
  destruct (Nat.ltb_spec k n) as [L|L].
  - rewrite nth_error_map, nth_error_seq.
    destruct (Nat.ltb_spec k n); [reflexivity|lia].
  - apply nth_error_None. rewrite length_map, length_seq. exact L.
Qed.

(** C2 (as amended).  For a 2D base and a minimum size [m >= 1] the builder
    returns a pyramid whose level 0 is the base it was given, whose level
    [k + 1] is the reduction of level [k], with both dimensions halved and
    rounded up, in which a level has a successor exactly when its smaller
    dimension is at least [2 * m], and which has no more levels for a
    larger minimum size. *)
Theorem build_pyramid_spec (base : ndarray) (h w m : Z) :
  shape base = [h; w] -> 1 <= m ->
  exists pyramid,
    build_pyramid m base = Ok pyramid /\
    nth_error pyramid 0 = Some base /\
    (forall k a b,
       nth_error pyramid k = Some a -> nth_error pyramid (S k) = Some b ->
       b = pyramid_reduce a /\
       shape b = map (fun d => cdiv d 2) (shape a)) /\
    (forall k a,
       nth_error pyramid k = Some a ->
       ((S k < List.length pyramid)%nat <-> m * 2 <= min_shape a)) /\
    (forall m' pyramid',
       m <= m' -> build_pyramid m' base = Ok pyramid' ->
       (List.length pyramid' <= List.length pyramid)%nat).
Proof.
  intros Hs Hm.
  destruct (build_pyramid_returns m base h w Hm Hs) as [p Hp].
  destruct (build_pyramid_levels m base p Hp) as (n & Hlv & Hall & Hlast).
  exists p. split; [exact Hp|].
  assert (Hlen : List.length p = S n) by (rewrite Hlv, length_map, length_seq; reflexivity).
  assert (Hnth : forall k a, nth_error p k = Some a ->
                             (k <= n)%nat /\ a = iter_reduce k base).
  { intros k a Hk. rewrite Hlv, nth_error_map_seq in Hk.
    destruct (Nat.ltb_spec k (S n)); [|discriminate].
    injection Hk as <-. split; [lia|reflexivity]. }
  split; [|split; [|split]].
  - rewrite Hlv. reflexivity.
  - intros k a b Ha Hb.
    destruct (Hnth _ _ Ha) as [_ ->]. destruct (Hnth _ _ Hb) as [_ ->].
    rewrite iter_reduce_succ. split; reflexivity.
  - intros k a Ha. destruct (Hnth _ _ Ha) as [Hk ->]. rewrite Hlen. split.
    + intros Hlt. apply Hall. lia.
    + intros Hge. destruct (Nat.eq_dec k n) as [->|Hne]; lia.
  - intros m' p' Hmm Hp'.
    destruct (build_pyramid_levels m' base p' Hp') as (n' & Hlv' & Hall' & _).
    rewrite Hlen. rewrite Hlv', length_map, length_seq.
    destruct (Nat.le_gt_cases n' n) as [L|L]; [lia|].
    specialize (Hall' n L). lia.
Qed.

End Pyramid.

Lemma build_pyramid_spec_witness :
  exists pyramid,
    @build_pyramid (toy "" None) default_min_size (blank [3000; 4000])
      = Ok pyramid /\
    map shape pyramid = [[3000; 4000]; [1500; 2000]; [750; 1000]].
Proof.
  destruct (@build_pyramid_spec (toy "" None) (blank [3000; 4000])
              3000 4000 default_min_size eq_refl ltac:(vm_compute; discriminate))
    as (p & Hp & _).
  exists p. split; [exact Hp|].
  vm_compute in Hp. injection Hp as <-. reflexivity.
Defined.

(** C2 as stated fails: the level above a 1025 x 1025 base is 513 x 513,
    not the floor 512 x 512. *)
Lemma pyramid_level_not_floor :
  match @build_pyramid (toy "" None) default_min_size (blank [1025; 1025]) with
  | Ok [level0; level1] =>
      shape level0 = [1025; 1025] /\
      shape level1 = [513; 513] /\
      shape level1 <> [1025 / 2; 1025 / 2]
  | _ => False
  end.
Proof. vm_compute. repeat split. discriminate. Qed.

(** ** The stride reduction before the pyramid *)

Section OmeTiff.
Context `{Externals}.

Lemma apply_reduction_2d (f : Z) (a : Q) (base0 : ndarray) (h w : Z) :
  shape base0 = [h; w] ->
  exists base h' w',
    apply_reduction f a base0 = Ok (base, if 1 <? f then (a * inject_Z f)%Q else a) /\
    shape base = [h'; w'] /\
    dtype base = dtype base0 /\
    (f <= 1 -> base = base0) /\
    (1 < f -> stride2 f base0 = Ok base).
Proof.
  intros Hs. unfold apply_reduction.
  destruct (Z.ltb_spec 1 f) as [L|L].
  - destruct (stride2_shape f h w base0 Hs) as (r & Hr & Hrs).
    rewrite Hr. exists r, (strided_len h f), (strided_len w f).
    repeat split; try assumption; try lia.
    unfold stride2 in Hr. rewrite Hs in Hr. injection Hr as <-. reflexivity.
  - exists base0, h, w. repeat split; try assumption; try lia.
Qed.

End OmeTiff.

(** ** The HDF5 file *)

Lemma nth_arange_times (n : Z) (step : Q) (j : nat) :
  (j < Z.to_nat n)%nat ->
  nth j (arange_times n step) 0%Q = (inject_Z (Z.of_nat j) * step)%Q.
Proof.
  intros Hj. unfold arange_times.
  set (g := fun k : nat => (inject_Z (Z.of_nat k) * step)%Q).
  rewrite (nth_indep _ 0%Q (g O))
    by (rewrite length_map, length_seq; exact Hj).
  rewrite (map_nth g), seq_nth by exact Hj. reflexivity.
Qed.

Lemma length_arange_times (n : Z) (step : Q) :
  List.length (arange_times n step) = Z.to_nat n.
Proof. unfold arange_times. rewrite length_map, length_seq. reflexivity. Qed.

Lemma stride2_at (f : Z) (base g : ndarray) (r c : Z) :
  stride2 f base = Ok g ->
  at_index g [r; c] = at_index base [f * r; f * c].
Proof.
  unfold stride2. destruct (shape base) as [|n0 [|n1 rest]]; try discriminate.
  intros E. injection E as <-. reflexivity.
Qed.

(** For a plane [base] of shape [(h, w)] and a calibration [mag] in
    angstrom, the file holds the datasets [res0], [res1], [res2], which are
    the plane itself and its stride-2 and stride-4 subsamples (sample
    [(r, c)] of level [i] is sample [(2^i r, 2^i c)] of the plane), and for
    each level [i] the scales [x_scale_res{i}] and [y_scale_res{i}], one
    value per column and per row of the level, whose [j]-th value is
    [j * (mag / 10) * 2^i], with units [nm] and names [x] and [y], attached
    to axis 1 (labelled [x]) and to axis 0 (labelled [y]); the file
    attributes are [source], [pixel_size_nm = mag / 10],
    [pixel_size_um = mag / 10 / 1000] and [unit]. *)
Lemma h5_contents_levels (base half quarter : ndarray) (h w : Z) (mag : Q)
    (compr : string) :
  shape base = [h; w] ->
  stride2 2 base = Ok half ->
  stride2 4 base = Ok quarter ->
  let file := h5_contents base half quarter mag compr in
  map fst (datasets file) =
    [ "res0"; "res1"; "res2";
      "x_scale_res0"; "y_scale_res0";
      "x_scale_res1"; "y_scale_res1";
      "x_scale_res2"; "y_scale_res2" ] /\
  (forall i, In i [0; 1; 2] ->
     exists g vx vy,
       nth_error [base; half; quarter] (Z.to_nat i) = Some g /\
       (forall r c, at_index g [r; c] = at_index base [2 ^ i * r; 2 ^ i * c]) /\
       h5_get (level_name i) file =
         Some {| ds_data := Grid g;
                 ds_compression := Some compr;
                 ds_chunks := true;
                 ds_attrs := [];
                 ds_dims :=
                   [ {| dim_label := "y"; dim_scales := [y_scale_name i] |};
                     {| dim_label := "x"; dim_scales := [x_scale_name i] |} ] |} /\
       h5_get (x_scale_name i) file =
         Some {| ds_data := Vector vx;
                 ds_compression := None;
                 ds_chunks := false;
                 ds_attrs := [ ("units", AStr "nm"); ("name", AStr "x") ];
                 ds_dims := [ {| dim_label := ""; dim_scales := [] |} ] |} /\
       h5_get (y_scale_name i) file =
         Some {| ds_data := Vector vy;
                 ds_compression := None;
                 ds_chunks := false;
                 ds_attrs := [ ("units", AStr "nm"); ("name", AStr "y") ];
                 ds_dims := [ {| dim_label := ""; dim_scales := [] |} ] |} /\
       List.length vx = Z.to_nat (dim 1 g) /\
       List.length vy = Z.to_nat (dim 0 g) /\
       (forall j, (j < List.length vx)%nat ->
          nth j vx 0 == inject_Z (Z.of_nat j) * (mag / 10) * inject_Z (2 ^ i))%Q /\
       (forall j, (j < List.length vy)%nat ->
          nth j vy 0 == inject_Z (Z.of_nat j) * (mag / 10) * inject_Z (2 ^ i))%Q) /\
  file_attrs file =
    [ ("source", AStr "SerialEM .mdoc");
      ("pixel_size_nm", ANum (mag / 10)%Q);
      ("pixel_size_um", ANum (mag / 10 / 1000)%Q);
      ("unit", AStr "nm") ].
Proof.
  intros Hs Hh Hq file.
  split; [reflexivity|]. split; [|reflexivity].
  intros i Hi.
  assert (Hat1 := fun r c => stride2_at 2 base half r c Hh).
  assert (Hat2 := fun r c => stride2_at 4 base quarter r c Hq).
  destruct base as [dt shp px]. cbn [shape] in Hs. subst shp.
  unfold stride2 in Hh, Hq. cbn [shape] in Hh, Hq.
  injection Hh as Hh. injection Hq as Hq.
  destruct Hi as [<-|[<-|[<-|[]]]].
  - eexists _, (arange_times w (mag / 10 * inject_Z (2 ^ 0))),
              (arange_times h (mag / 10 * inject_Z (2 ^ 0))).
    split; [reflexivity|].
    split; [intros r c; rewrite !Z.mul_1_l; reflexivity|].
    subst file half quarter.
    split; [reflexivity|]. split; [reflexivity|]. split; [reflexivity|].
    rewrite !length_arange_times.
    split; [reflexivity|]. split; [reflexivity|].
    split; intros j Hj; rewrite nth_arange_times by exact Hj; ring.
  - eexists _, (arange_times (strided_len w 2) (mag / 10 * inject_Z (2 ^ 1))),
              (arange_times (strided_len h 2) (mag / 10 * inject_Z (2 ^ 1))).
    split; [reflexivity|].
    split; [exact Hat1|].
    subst file half quarter.
    split; [reflexivity|]. split; [reflexivity|]. split; [reflexivity|].
    rewrite !length_arange_times.
    split; [reflexivity|]. split; [reflexivity|].
    split; intros j Hj; rewrite nth_arange_times by exact Hj; ring.
  - eexists _, (arange_times (strided_len w 4) (mag / 10 * inject_Z (2 ^ 2))),
              (arange_times (strided_len h 4) (mag / 10 * inject_Z (2 ^ 2))).
    split; [reflexivity|].
    split; [exact Hat2|].
    subst file half quarter.
    split; [reflexivity|]. split; [reflexivity|]. split; [reflexivity|].
    rewrite !length_arange_times.
    split; [reflexivity|]. split; [reflexivity|].
    split; intros j Hj; rewrite nth_arange_times by exact Hj; ring.
Qed.

(** ** The BigDataViewer descriptor *)

(** C9.  For a shape [(h, w)] and a pixel size [p] in micrometers the
    descriptor names the HDF5 file with type [relative], has one view setup
    of size [(w, h, 1)] with voxel size [(p, p, p)] and channel attribute 1,
    one channel, the timepoint range [0, 0], and one affine registration
    whose 3 x 4 matrix has [p] on the diagonal and 0 elsewhere. *)
Theorem create_bdv_xml_spec (xml_path h5_filename : string) (h w : Z) (p : Q)
    (d : disk) :
  exists doc vs vr,
    create_bdv_xml xml_path h5_filename [h; w] p d =
      {| final := (xml_path, XmlFile doc) :: delete xml_path d;
         trace := [Wrote xml_path (XmlFile doc)];
         value := Ok tt |} /\
    hdf5_type doc = "relative" /\
    hdf5 doc = h5_filename /\
    view_setups doc = [vs] /\
    setup_size vs = (w, h, 1) /\
    voxel_size vs = (p, p, p) /\
    setup_channel vs = 1 /\
    channel_attributes doc = [(1, "1")] /\
    (timepoints_first doc, timepoints_last doc) = (0, 0) /\
    view_registrations doc = [vr] /\
    transform_type vr = "affine" /\
    List.length (affine vr) = 12%nat /\
    (forall r c, (r < 3)%nat -> (c < 4)%nat ->
       matrix_entry (affine vr) r c = if (r =? c)%nat then p else 0%Q).
Proof.
  eexists _, _, _. split; [reflexivity|].
  repeat (split; [reflexivity|]).
  intros r c Hr Hc.
  destruct r as [|[|[|r]]]; [| | |lia];
    (destruct c as [|[|[|[|c]]]]; [| | | |lia]); reflexivity.
Qed.

Lemma create_bdv_xml_spec_witness :
  exists doc vs vr,
    value (create_bdv_xml "a.xml" "a.h5" [30; 40] (3 # 20000) []) = Ok tt /\
    view_setups doc = [vs] /\
    setup_size vs = (40, 30, 1) /\
    view_registrations doc = [vr] /\
    affine vr = [ 3 # 20000; 0; 0; 0;
                  0; 3 # 20000; 0; 0;
                  0; 0; 3 # 20000; 0 ]%Q.
Proof.
  destruct (create_bdv_xml_spec "a.xml" "a.h5" 30 40 (3 # 20000) [])
    as (doc & vs & vr & Hrun & _ & _ & Hvs & Hsz & _ & _ & _ & _ & Hvr & _).
  exists doc, vs, vr.
  split; [rewrite Hrun; reflexivity|].
  split; [exact Hvs|]. split; [exact Hsz|]. split; [exact Hvr|].
  vm_compute in Hrun. injection Hrun as Hdoc. subst doc.
  injection Hvr as <-. reflexivity.
Defined.

(** What a run of the HDF5 emitter does: it reads the input, keeps the first
    plane of a stack, and writes the HDF5 file and then the descriptor. *)
Lemma create_hdf5_pyramid_run (path out : string) (base0 base : ndarray)
    (h w : Z) (mag : Q) (compr : string) (d : disk) :
  lookup path d = Some (MrcFile base0) ->
  first_plane_if_3d base0 = Ok base ->
  shape base = [h; w] ->
  exists half quarter doc,
    stride2 2 base = Ok half /\
    stride2 4 base = Ok quarter /\
    bdv_document out [h; w] (mag / 10 / 1000) = Ok doc /\
    create_hdf5_pyramid path out mag compr d =
      {| final :=
           (with_suffix out ".xml", XmlFile doc)
           :: delete (with_suffix out ".xml")
                ((out, H5File (h5_contents base half quarter mag compr))
                 :: delete out d);
         trace := [ Wrote out (H5File (h5_contents base half quarter mag compr));
                    Wrote (with_suffix out ".xml") (XmlFile doc) ];
         value := Ok tt |}.
Proof.
  intros Hl Hf Hs.
  destruct (stride2_shape 2 h w base Hs) as (half & Hh & _).
  destruct (stride2_shape 4 h w base Hs) as (quarter & Hq & _).
  eexists half, quarter, _. split; [exact Hh|]. split; [exact Hq|].
  split; [reflexivity|].
  unfold create_hdf5_pyramid, bind, mrc_open, lift, write_file, create_bdv_xml.
  cbn [value final trace]. rewrite Hl. cbn [value final trace].
  rewrite Hf. cbn [value final trace]. rewrite Hh. cbn [value final trace].
  rewrite Hq. cbn [value final trace]. rewrite Hs.
  reflexivity.
Qed.

(** C4.  For an input whose plane [base] (the raster itself, or the first
    plane of a stack) has shape [(h, w)] and a calibration [mag] in
    angstrom, the emitter returns after writing the HDF5 file and its
    descriptor.  The file holds the datasets [res0], [res1], [res2], which
    are the plane and its stride-2 and stride-4 subsamples, unfiltered
    (sample [(r, c)] of level [i] is sample [(2^i r, 2^i c)] of the plane),
    and for each level [i] the scales [x_scale_res{i}] and
    [y_scale_res{i}], one value per column and per row of the level, whose
    [j]-th value is [j * (mag / 10) * 2^i], with units [nm] and names [x]
    and [y],
    attached to axis 1 (labelled [x]) and to axis 0 (labelled [y]); the
    file attributes are [source], [pixel_size_nm = mag / 10],
    [pixel_size_um = mag / 10 / 1000] and [unit]. *)
Theorem create_hdf5_pyramid_spec (path out : string) (base0 base : ndarray)
    (h w : Z) (mag : Q) (compr : string) (d : disk) :
  lookup path d = Some (MrcFile base0) ->
  first_plane_if_3d base0 = Ok base ->
  shape base = [h; w] ->
  exists half quarter file doc,
    stride2 2 base = Ok half /\
    stride2 4 base = Ok quarter /\
    value (create_hdf5_pyramid path out mag compr d) = Ok tt /\
    trace (create_hdf5_pyramid path out mag compr d) =
      [ Wrote out (H5File file);
        Wrote (with_suffix out ".xml") (XmlFile doc) ] /\
  map fst (datasets file) =
    [ "res0"; "res1"; "res2";
      "x_scale_res0"; "y_scale_res0";
      "x_scale_res1"; "y_scale_res1";
      "x_scale_res2"; "y_scale_res2" ] /\
  (forall i, In i [0; 1; 2] ->
     exists g vx vy,
       nth_error [base; half; quarter] (Z.to_nat i) = Some g /\
       (forall r c, at_index g [r; c] = at_index base [2 ^ i * r; 2 ^ i * c]) /\
       h5_get (level_name i) file =
         Some {| ds_data := Grid g;
                 ds_compression := Some compr;
                 ds_chunks := true;
                 ds_attrs := [];
                 ds_dims :=
                   [ {| dim_label := "y"; dim_scales := [y_scale_name i] |};
                     {| dim_label := "x"; dim_scales := [x_scale_name i] |} ] |} /\
       h5_get (x_scale_name i) file =
         Some {| ds_data := Vector vx;
                 ds_compression := None;
                 ds_chunks := false;
                 ds_attrs := [ ("units", AStr "nm"); ("name", AStr "x") ];
                 ds_dims := [ {| dim_label := ""; dim_scales := [] |} ] |} /\
       h5_get (y_scale_name i) file =
         Some {| ds_data := Vector vy;
                 ds_compression := None;
                 ds_chunks := false;
                 ds_attrs := [ ("units", AStr "nm"); ("name", AStr "y") ];
                 ds_dims := [ {| dim_label := ""; dim_scales := [] |} ] |} /\
       List.length vx = Z.to_nat (dim 1 g) /\
       List.length vy = Z.to_nat (dim 0 g) /\
       (forall j, (j < List.length vx)%nat ->
          nth j vx 0 == inject_Z (Z.of_nat j) * (mag / 10) * inject_Z (2 ^ i))%Q /\
       (forall j, (j < List.length vy)%nat ->
          nth j vy 0 == inject_Z (Z.of_nat j) * (mag / 10) * inject_Z (2 ^ i))%Q) /\
  file_attrs file =
    [ ("source", AStr "SerialEM .mdoc");
      ("pixel_size_nm", ANum (mag / 10)%Q);
      ("pixel_size_um", ANum (mag / 10 / 1000)%Q);
      ("unit", AStr "nm") ].
Proof.
  intros Hl Hf Hs.
  destruct (create_hdf5_pyramid_run path out base0 base h w mag compr d Hl Hf Hs)
    as (half & quarter & doc & Hh & Hq & _ & Hrun).
  exists half, quarter, (h5_contents base half quarter mag compr), doc.
  split; [exact Hh|]. split; [exact Hq|].
  rewrite Hrun. split; [reflexivity|]. split; [reflexivity|].
  exact (h5_contents_levels base half quarter h w mag compr Hs Hh Hq).
Qed.

Lemma create_hdf5_pyramid_spec_witness :
  exists half quarter file doc,
    stride2 2 (ramp 5 7) = Ok half /\
    stride2 4 (ramp 5 7) = Ok quarter /\
    shape half = [3; 4] /\ shape quarter = [2; 2] /\
    at_index quarter [1; 1] = 404 /\
    trace (create_hdf5_pyramid "a_blended.mrc" "a.h5" (15 # 1) "gzip"
             [("a_blended.mrc", MrcFile (ramp 5 7))]) =
      [ Wrote "a.h5" (H5File file); Wrote "a.xml" (XmlFile doc) ] /\
    file_attrs file =
      [ ("source", AStr "SerialEM .mdoc");
        ("pixel_size_nm", ANum (15 / 10)%Q);
        ("pixel_size_um", ANum (15 / 10 / 1000)%Q);
        ("unit", AStr "nm") ].
Proof.
  destruct (create_hdf5_pyramid_spec "a_blended.mrc" "a.h5" (ramp 5 7) (ramp 5 7)
              5 7 (15 # 1) "gzip" [("a_blended.mrc", MrcFile (ramp 5 7))]
              eq_refl eq_refl eq_refl)
    as (half & quarter & file & doc & Hh & Hq & _ & Htr & _ & _ & Hattrs).
  exists half, quarter, file, doc.
  split; [exact Hh|]. split; [exact Hq|].
  unfold stride2 in Hh, Hq. cbn [shape ramp] in Hh, Hq.
  injection Hh as <-. injection Hq as <-.
  split; [reflexivity|]. split; [reflexivity|]. split; [reflexivity|].
  split; [exact Htr|exact Hattrs].
Defined.

(** ** The metadata reader *)

Section Reader.
Context `{Externals}.

Lemma scan_lines_skip (before : list string) (rest : list string) :
  forallb (fun x => negb (is_key_line x)) before = true ->
  scan_lines (before ++ rest) = scan_lines rest.
Proof.
  induction before as [|x before IH]; intros Hb; [reflexivity|].
  cbn [forallb] in Hb. apply andb_prop in Hb. destruct Hb as [Hx Hb].
  cbn [app scan_lines]. unfold is_key_line in Hx.
  destruct (contains "PixelSpacing" x); [|exact (IH Hb)].
  cbn [andb] in Hx.
  destruct (List.length (split " = " (strip x)) =? 2)%nat; [discriminate|].
  exact (IH Hb).
Qed.

Lemma scan_lines_key (l : string) (rest : list string) :
  is_key_line l = true -> scan_lines (l :: rest) = decide_line l.
Proof.
  intros Hl. unfold is_key_line in Hl. apply andb_prop in Hl.
  destruct Hl as [Hc Hn]. cbn [scan_lines]. rewrite Hc, Hn. reflexivity.
Qed.

Lemma scan_lines_none (lines : list string) :
  forallb (fun x => negb (is_key_line x)) lines = true ->
  scan_lines lines = (print msg_no_line ;; ret None).
Proof.
  intros Hb. rewrite <- (app_nil_r lines).
  rewrite (scan_lines_skip lines [] Hb). reflexivity.
Qed.

(** Every list of lines either has no key line or splits at its first. *)
Lemma first_key_line (lines : list string) :
  forallb (fun x => negb (is_key_line x)) lines = true \/
  exists before l rest,
    lines = before ++ l :: rest /\
    forallb (fun x => negb (is_key_line x)) before = true /\
    is_key_line l = true.
Proof.
  induction lines as [|x lines IH]; [left; reflexivity|].
  destruct (is_key_line x) eqn:Hx.
  - right. exists [], x, lines. repeat split. exact Hx.
  - destruct IH as [Hn|(before & l & rest & -> & Hb & Hl)].
    + left. cbn [forallb]. rewrite Hx, Hn. reflexivity.
    + right. exists (x :: before), l, rest. repeat split; [|exact Hl].
      cbn [forallb]. rewrite Hx, Hb. reflexivity.
Qed.

Lemma get_mag_text (path : string) (lines : list string) (d : disk) :
  lookup path d = Some (TextFile lines) ->
  get_mag path d = scan_lines lines d.
Proof.
  intros Hl. unfold get_mag, try_except, bind, read_lines.
  cbn [value final trace]. rewrite Hl. cbn [value final trace app].
  destruct (scan_lines lines d) as [fin tr [v|e|]] eqn:Hrun;
    cbn [value final trace]; try reflexivity.
  exfalso. revert Hrun. clear Hl.
  destruct (first_key_line lines) as [Hn|(before & l & rest & -> & Hb & Hk)].
  - rewrite (scan_lines_none lines Hn). discriminate.
  - rewrite (scan_lines_skip before _ Hb), (scan_lines_key l rest Hk).
    unfold decide_line. destruct (py_float (value_part l)); discriminate.
Qed.

Lemma scan_lines_find (lines : list string) :
  scan_lines lines =
  match find is_key_line lines with
  | Some l => decide_line l
  | None => print msg_no_line ;; ret None
  end.
Proof.
  induction lines as [|x lines IH]; [reflexivity|].
  cbn [find]. destruct (is_key_line x) eqn:Hx.
  - apply scan_lines_key. exact Hx.
  - rewrite <- IH. apply (scan_lines_skip [x] lines).
    cbn [forallb]. rewrite Hx. reflexivity.
Qed.

(** The run of the reader, case by case. *)
Lemma get_mag_run (path : string) (d : disk) :
  get_mag path d =
    match lookup path d with
    | None =>
        {| final := d; trace := [Printed (msg_not_found path)];
           value := Ok None |}
    | Some (TextFile lines) =>
        match find is_key_line lines with
        | None =>
            {| final := d; trace := [Printed msg_no_line]; value := Ok None |}
        | Some l =>
            match py_float (value_part l) with
            | Some v => {| final := d; trace := []; value := Ok (Some v) |}
            | None =>
                {| final := d; trace := [Printed msg_no_float];
                   value := Ok None |}
            end
        end
    | Some _ =>
        {| final := d; trace := [];
           value := Raise (ValueError "cannot decode as utf-8") |}
    end.
Proof.
  destruct (lookup path d) as [c|] eqn:Hl.
  - destruct c as [a|lines|t|f|x|];
      try (unfold get_mag, try_except, bind, read_lines;
           cbn [value final trace]; rewrite Hl; reflexivity).
    rewrite (get_mag_text path lines d Hl), scan_lines_find.
    destruct (find is_key_line lines) as [l|]; [|reflexivity].
    unfold decide_line. destruct (py_float (value_part l)); reflexivity.
  - unfold get_mag, try_except, bind, read_lines.
    cbn [value final trace]. rewrite Hl. reflexivity.
Qed.

(** C6 (as amended).  The reader never raises on a missing file.  It
    returns the parsed float when the first key line carries one, and
    [None] in every other case: file absent, no key line, value not numeric.
    These three cases differ only in the message printed. *)
Theorem get_mag_outcomes (path : string) (d : disk) :
  get_mag path d =
    match lookup path d with
    | None =>
        {| final := d; trace := [Printed (msg_not_found path)];
           value := Ok None |}
    | Some (TextFile lines) =>
        match find is_key_line lines with
        | None =>
            {| final := d; trace := [Printed msg_no_line]; value := Ok None |}
        | Some l =>
            match py_float (value_part l) with
            | Some v => {| final := d; trace := []; value := Ok (Some v) |}
            | None =>
                {| final := d; trace := [Printed msg_no_float];
                   value := Ok None |}
            end
        end
    | Some _ =>
        {| final := d; trace := [];
           value := Raise (ValueError "cannot decode as utf-8") |}
    end /\
  msg_not_found path <> msg_no_line /\
  msg_not_found path <> msg_no_float /\
  msg_no_line <> msg_no_float.
Proof.
  split; [apply get_mag_run|repeat split; discriminate].
Qed.

(** C7 (as amended).  Lines that contain the key without splitting into
    two parts around [" = "] are passed over.  The first line that contains
    the key and does split into two parts decides the result, whatever
    follows it, also when its value is not numeric. *)
Theorem get_mag_first_key_line (path : string) (before : list string)
    (l : string) (rest1 rest2 : list string) (d1 d2 : disk) :
  forallb (fun x => negb (is_key_line x)) before = true ->
  is_key_line l = true ->
  lookup path d1 = Some (TextFile (before ++ l :: rest1)) ->
  lookup path d2 = Some (TextFile (before ++ l :: rest2)) ->
  value (get_mag path d1) = value (get_mag path d2) /\
  trace (get_mag path d1) = trace (get_mag path d2) /\
  value (get_mag path d1) = Ok (py_float (value_part l)).
Proof.
  intros Hb Hk H1 H2.
  rewrite (get_mag_text path _ d1 H1), (get_mag_text path _ d2 H2).
  rewrite !(scan_lines_skip before _ Hb), !(scan_lines_key l _ Hk).
  unfold decide_line. destruct (py_float (value_part l)); repeat split.
Qed.

End Reader.

Lemma get_mag_outcomes_witness :
  value (@get_mag (toy "" None) "a.mrc.mdoc"
           [("a.mrc.mdoc", TextFile ["[ZValue = 0]"; "PixelSpacing = 1.5"])])
  = Ok (Some (15 # 10)).
Proof.
  destruct (@get_mag_outcomes (toy "" None) "a.mrc.mdoc"
              [("a.mrc.mdoc", TextFile ["[ZValue = 0]"; "PixelSpacing = 1.5"])])
    as [Hrun _].
  rewrite Hrun. reflexivity.
Defined.

(** C6 as stated fails: an absent file, a file without the key and a file
    whose value is not numeric all give the same return value. *)
Lemma get_mag_same_return :
  value (@get_mag (toy "" None) "a.mrc.mdoc" []) = Ok None /\
  value (@get_mag (toy "" None) "a.mrc.mdoc"
           [("a.mrc.mdoc", TextFile ["Voltage = 300"])]) = Ok None /\
  value (@get_mag (toy "" None) "a.mrc.mdoc"
           [("a.mrc.mdoc", TextFile ["PixelSpacing = abc"])]) = Ok None.
Proof. repeat split; reflexivity. Qed.

Lemma get_mag_first_key_line_witness :
  value (@get_mag (toy "" None) "a.mrc.mdoc"
           [("a.mrc.mdoc",
             TextFile ["PixelSpacing=7"; "PixelSpacing = abc"; "PixelSpacing = 2"])])
  = Ok None.
Proof.
  destruct (@get_mag_first_key_line (toy "" None) "a.mrc.mdoc"
              ["PixelSpacing=7"] "PixelSpacing = abc"
              ["PixelSpacing = 2"] []
              [("a.mrc.mdoc",
                TextFile ["PixelSpacing=7"; "PixelSpacing = abc"; "PixelSpacing = 2"])]
              [("a.mrc.mdoc", TextFile ["PixelSpacing=7"; "PixelSpacing = abc"])]
              eq_refl eq_refl eq_refl eq_refl) as (_ & _ & Hv).
  rewrite Hv. reflexivity.
Defined.

(** C7 as stated fails: two files with the same first line containing the
    key give different results, because that line does not split around
    [" = "] and a later line decides. *)
Lemma get_mag_later_line_decides :
  value (@get_mag (toy "" None) "a.mrc.mdoc"
           [("a.mrc.mdoc", TextFile ["PixelSpacing=7"; "PixelSpacing = 2.5"])])
  = Ok (Some (25 # 10)) /\
  value (@get_mag (toy "" None) "a.mrc.mdoc"
           [("a.mrc.mdoc", TextFile ["PixelSpacing=7"; "PixelSpacing = 4"])])
  = Ok (Some (4 # 1)).
Proof. split; reflexivity. Qed.

(** ** Files *)

Lemma lookup_cons_eq (k : string) (c : content) (d : disk) :
  lookup k ((k, c) :: d) = Some c.
Proof. unfold lookup. cbn [find fst]. rewrite String.eqb_refl. reflexivity. Qed.

Lemma lookup_cons_ne (k k' : string) (c : content) (d : disk) :
  k <> k' -> lookup k ((k', c) :: d) = lookup k d.
Proof.
  intros Hne. unfold lookup. cbn [find fst].
  destruct (String.eqb_spec k' k); [congruence|reflexivity].
Qed.

Lemma lookup_delete_ne (k k' : string) (d : disk) :
  k <> k' -> lookup k (delete k' d) = lookup k d.
Proof.
  intros Hne. unfold lookup, delete.
  induction d as [|[n c] d IH]; [reflexivity|].
  cbn [filter find fst]. destruct (String.eqb_spec n k') as [->|Hn].
  - cbn [negb]. destruct (String.eqb_spec k' k); [congruence|exact IH].
  - cbn [negb find fst]. destruct (String.eqb_spec n k); [reflexivity|exact IH].
Qed.

Lemma lookup_delete_eq (k : string) (d : disk) : lookup k (delete k d) = None.
Proof.
  unfold lookup, delete.
  induction d as [|[n c] d IH]; [reflexivity|].
  cbn [filter find fst]. destruct (String.eqb_spec n k) as [->|Hn].
  - exact IH.
  - cbn [negb find fst]. destruct (String.eqb_spec n k); [contradiction|exact IH].
Qed.

(** A file written at [k'] leaves every other path as it was. *)
Lemma lookup_write_ne (k k' : string) (c : content) (d : disk) :
  k <> k' -> lookup k ((k', c) :: delete k' d) = lookup k d.
Proof.
  intros Hne. rewrite lookup_cons_ne, lookup_delete_ne by exact Hne. reflexivity.
Qed.

(** ** The OME-TIFF emitter and the rank of the input *)

Section Emitters.
Context `{Externals}.

Lemma ome_tiff_of_2d (name : string) (base0 : ndarray) (h w : Z) (a : Q)
    (m tile_size : Z) (compr : string) (f : Z) :
  shape base0 = [h; w] -> 1 <= m ->
  exists t, ome_tiff_of name base0 a m tile_size compr f = Ok t.
Proof.
  intros Hs Hm. unfold ome_tiff_of.
  assert (Hnd : (ndim base0 =? 2) = true) by (unfold ndim; rewrite Hs; reflexivity).
  rewrite Hnd. cbn [negb].
  destruct (apply_reduction_2d f a base0 h w Hs)
    as (base & h' & w' & Hred & Hbs & _).
  rewrite Hred.
  destruct (build_pyramid_returns m base h' w' Hm Hbs) as [p Hp].
  rewrite Hp. eauto.
Qed.

Lemma ome_tiff_of_not_2d (name : string) (base0 : ndarray) (a : Q)
    (m tile_size : Z) (compr : string) (f : Z) :
  ndim base0 <> 2 ->
  ome_tiff_of name base0 a m tile_size compr f
  = Raise (ValueError "Image must be 2D.").
Proof.
  intros Hn. unfold ome_tiff_of.
  destruct (Z.eqb_spec (ndim base0) 2); [contradiction|reflexivity].
Qed.

Lemma create_ome_run (path out : string) (base0 : ndarray) (a : Q)
    (m tile_size : Z) (compr : string) (f : Z) (d : disk) :
  lookup path d = Some (MrcFile base0) ->
  create_ome_bigtiff_pyramid path out a m tile_size compr f d =
    match ome_tiff_of path base0 a m tile_size compr f with
    | Ok t => {| final := (out, TiffFile t) :: delete out d;
                 trace := [Wrote out (TiffFile t)]; value := Ok tt |}
    | Raise e => {| final := d; trace := []; value := Raise e |}
    | NoReturn => {| final := d; trace := []; value := NoReturn |}
    end.
Proof.
  intros Hl. unfold create_ome_bigtiff_pyramid, bind, mrc_open, lift, write_file.
  cbn [value final trace]. rewrite Hl. cbn [value final trace].
  destruct (ome_tiff_of path base0 a m tile_size compr f); reflexivity.
Qed.

Lemma ndim_2 (a : ndarray) : ndim a = 2 -> exists h w, shape a = [h; w].
Proof.
  unfold ndim. destruct (shape a) as [|h [|w [|x l]]]; cbn [List.length]; try lia.
  eauto.
Qed.

(** C3.  For a 2D input, a calibration [a] in angstrom and a stride
    [f >= 1], the emitter writes one TIFF file, nothing else, and returns;
    the file has a first page whose description is an OME
    document with one image, whose physical pixel size is the same for X
    and Y and equals [a * f * 1e-4], whose [size_x] and [size_y] are the
    dimensions of the level-0 page, with one channel and
    [size_z = size_c = size_t = 1]. *)
Theorem ome_tiff_calibration (name out : string) (base0 : ndarray) (h w : Z)
    (a : Q) (f m tile_size : Z) (compr : string) (d : disk) :
  lookup name d = Some (MrcFile base0) ->
  shape base0 = [h; w] -> 1 <= f -> 1 <= m ->
  exists t page0 levels px,
    create_ome_bigtiff_pyramid name out a m tile_size compr f d =
      {| final := (out, TiffFile t) :: delete out d;
         trace := [Wrote out (TiffFile t)];
         value := Ok tt |} /\
    pages t = page0 :: levels /\
    description page0 =
      Some {| images := [ {| image_name := name; image_id := "Image:0";
                             pixels := px |} ] |} /\
    (physical_size_x px == a * inject_Z f * (1 # 10000))%Q /\
    physical_size_y px = physical_size_x px /\
    size_x px = dim 1 (page_data page0) /\
    size_y px = dim 0 (page_data page0) /\
    (1 < f -> stride2 f base0 = Ok (page_data page0)) /\
    (f = 1 -> page_data page0 = base0) /\
    List.length (channels px) = 1%nat /\
    size_z px = 1 /\ size_c px = 1 /\ size_t px = 1.
Proof.
  intros Hl Hs Hf Hm.
  rewrite (create_ome_run name out base0 a m tile_size compr f d Hl).
  unfold ome_tiff_of.
  assert (Hnd : (ndim base0 =? 2) = true) by (unfold ndim; rewrite Hs; reflexivity).
  rewrite Hnd. cbn [negb].
  destruct (apply_reduction_2d f a base0 h w Hs)
    as (base & h' & w' & Hred & Hbs & _ & Hsame & Hstr).
  rewrite Hred.
  destruct (build_pyramid_returns m base h' w' Hm Hbs) as [p Hp].
  destruct (build_pyramid_levels m base p Hp) as (n & Hlv & _).
  assert (H0 : nth_error p 0 = Some base) by (rewrite Hlv; reflexivity).
  rewrite Hp.
  destruct p as [|level0 rest]; [discriminate|].
  injection H0 as ->.
  eexists _, _, _, _. split; [reflexivity|].
  cbn [pages tiff_pages]. split; [reflexivity|].
  cbn [description ome_metadata]. split; [reflexivity|].
  cbn [physical_size_x physical_size_y size_x size_y size_z size_c size_t
       channels page_data List.length].
  repeat split; try reflexivity.
  - destruct (Z.ltb_spec 1 f) as [L|L]; [reflexivity|].
    assert (f = 1) by lia. subst f. ring.
  - exact Hstr.
  - intros ->. apply Hsame. lia.
Qed.


End Emitters.

Lemma ome_tiff_calibration_witness :
  exists t page0 levels px,
    trace (@create_ome_bigtiff_pyramid (toy "" None) "a_blended.mrc"
             "a_reduced.ome.tif" (3 # 2) default_min_size default_tile_size
             default_compression 2
             [("a_blended.mrc", MrcFile (blank [50000; 50000]))])
    = [Wrote "a_reduced.ome.tif" (TiffFile t)] /\
    pages t = page0 :: levels /\
    (physical_size_x px == 3 # 10000)%Q /\
    size_x px = 25000 /\ size_y px = 25000.
Proof.
  destruct (@ome_tiff_calibration (toy "" None) "a_blended.mrc"
              "a_reduced.ome.tif"
              (blank [50000; 50000]) 50000 50000 (3 # 2) 2
              default_min_size default_tile_size default_compression
              [("a_blended.mrc", MrcFile (blank [50000; 50000]))]
              eq_refl eq_refl ltac:(lia) ltac:(vm_compute; discriminate))
    as (t & page0 & levels & px & Ht & Hpg & _ & Hx & _ & Hsx & Hsy & Hstr & _).
  exists t, page0, levels, px.
  specialize (Hstr ltac:(lia)). unfold stride2 in Hstr. cbn [shape blank] in Hstr.
  injection Hstr as Hpd.
  split; [rewrite Ht; reflexivity|].
  repeat split; try assumption.
  - rewrite Hx. reflexivity.
  - rewrite Hsx, <- Hpd. reflexivity.
  - rewrite Hsy, <- Hpd. reflexivity.
Defined.



(** ** Cleanup *)

Lemma lookup_in (n : string) (d : disk) :
  lookup n d <> None <-> In n (map fst d).
Proof.
  unfold lookup. induction d as [|[k c] d IH]; cbn [find map fst In].
  - split; [congruence|tauto].
  - destruct (String.eqb_spec k n) as [->|Hne].
    + split; [tauto|discriminate].
    + rewrite IH. split; [tauto|]. intros [E|I]; [congruence|exact I].
Qed.

Lemma lookup_delete (n k : string) (d : disk) :
  lookup n (delete k d) = if String.eqb n k then None else lookup n d.
Proof.
  destruct (String.eqb_spec n k) as [->|Hne].
  - apply lookup_delete_eq.
  - apply lookup_delete_ne. exact Hne.
Qed.

Lemma lookup_delete_all (names : list string) :
  forall (n : string) (d : disk),
    lookup n (delete_all names d) =
    if in_dec string_dec n names then None else lookup n d.
Proof.
  unfold delete_all.
  induction names as [|k names IH]; intros n d; [reflexivity|].
  cbn [fold_left]. rewrite IH, lookup_delete.
  destruct (in_dec string_dec n names) as [I|NI];
    destruct (in_dec string_dec n (k :: names)) as [I'|NI'];
    try reflexivity.
  - exfalso. apply NI'. right. exact I.
  - destruct (String.eqb_spec n k) as [->|Hne]; [reflexivity|].
    destruct I' as [E|I']; [congruence|contradiction].
  - destruct (String.eqb_spec n k) as [->|Hne]; [|reflexivity].
    exfalso. apply NI'. left. reflexivity.
Qed.

(** Removing distinct files that exist never raises. *)
Lemma for_each_remove (names : list string) :
  forall d : disk,
    NoDup names ->
    (forall n, In n names -> lookup n d <> None) ->
    for_each names os_remove d =
      {| final := delete_all names d; trace := map Removed names;
         value := Ok tt |}.
Proof.
  induction names as [|k names IH]; intros d Hnd Hex; [reflexivity|].
  inversion Hnd as [|? ? Hk Hnd']; subst.
  cbn [for_each]. unfold bind.
  assert (Hrm : os_remove k d =
                {| final := delete k d; trace := [Removed k]; value := Ok tt |}).
  { unfold os_remove. destruct (lookup k d) eqn:Hl; [reflexivity|].
    exfalso. apply (Hex k); [left; reflexivity|exact Hl]. }
  rewrite Hrm. cbn [value final trace].
  rewrite (IH (delete k d) Hnd').
  - reflexivity.
  - intros n Hn. rewrite lookup_delete.
    destruct (String.eqb_spec n k) as [->|_]; [contradiction|].
    apply Hex. right. exact Hn.
Qed.

Lemma glob_names (pre : string) (d : disk) (n : string) :
  In n (nodup string_dec (filter (prefix pre) (map fst d))) <->
  lookup n d <> None /\ prefix pre n = true.
Proof. rewrite nodup_In, filter_In, lookup_in. reflexivity. Qed.

Lemma lookup_delete_all_some (names : list string) (n : string) (d : disk) :
  lookup n (delete_all names d) <> None ->
  ~ In n names /\ lookup n d <> None.
Proof.
  rewrite lookup_delete_all.
  destruct (in_dec string_dec n names); [congruence|tauto].
Qed.

(** The cleanup block always succeeds; it only removes files, and leaves
    none of the intermediate files. *)
Lemma cleanup_run (cblf : string) (d : disk) :
  exists removed d',
    cleanup cblf d =
      {| final := d'; trace := map Removed removed; value := Ok tt |} /\
    cleaned cblf d' /\
    (forall n, lookup n d' <> None -> lookup n d <> None) /\
    (forall n, lookup n d <> None ->
       prefix "MONTAGE_EDGES" n = false -> prefix "montage_plf" n = false ->
       n <> cblf -> lookup n d' = lookup n d).
Proof.
  unfold cleanup, bind, glob_prefix, path_exists.
  cbn [value final trace app].
  set (edges := nodup string_dec (filter (prefix "MONTAGE_EDGES") (map fst d))).
  rewrite (for_each_remove edges d);
    [|apply NoDup_nodup
     |intros n Hn; exact (proj1 (proj1 (glob_names "MONTAGE_EDGES" d n) Hn))].
  cbn [value final trace app].
  set (d1 := delete_all edges d).
  set (pieces := nodup string_dec (filter (prefix "montage_plf") (map fst d1))).
  rewrite (for_each_remove pieces d1);
    [|apply NoDup_nodup
     |intros n Hn; exact (proj1 (proj1 (glob_names "montage_plf" d1 n) Hn))].
  cbn [value final trace app].
  set (d2 := delete_all pieces d1).
  assert (Hstep : forall n, lookup n d2 <> None ->
            lookup n d <> None /\ prefix "MONTAGE_EDGES" n = false /\
            prefix "montage_plf" n = false).
  { intros n Hn. apply lookup_delete_all_some in Hn. destruct Hn as [Hp Hn].
    pose proof Hn as Hn1.
    apply lookup_delete_all_some in Hn. destruct Hn as [He Hn].
    split; [exact Hn|]. split.
    - destruct (prefix "MONTAGE_EDGES" n) eqn:E; [|reflexivity].
      exfalso. apply He. apply glob_names. split; assumption.
    - destruct (prefix "montage_plf" n) eqn:E; [|reflexivity].
      exfalso. apply Hp. apply glob_names. split; assumption. }
  assert (Hsame : forall n, lookup n d <> None ->
            prefix "MONTAGE_EDGES" n = false -> prefix "montage_plf" n = false ->
            lookup n d2 = lookup n d).
  { intros n Hn He Hp. unfold d2, d1. rewrite !lookup_delete_all.
    destruct (in_dec string_dec n pieces) as [I|_].
    { apply glob_names in I. destruct I as [_ I]. congruence. }
    destruct (in_dec string_dec n edges) as [I|_]; [|reflexivity].
    apply glob_names in I. destruct I as [_ I]. congruence. }
  destruct (lookup cblf d2) as [c|] eqn:Hc.
  - exists (edges ++ pieces ++ [cblf]), (delete cblf d2). split.
    + unfold os_remove. rewrite Hc. cbn [value final trace].
      rewrite !map_app. reflexivity.
    + split; [|split].
      * intros n Hn. rewrite lookup_delete in Hn.
        destruct (String.eqb_spec n cblf) as [E|Hne]; [congruence|].
        destruct (Hstep n Hn) as (_ & He & Hp). repeat split; assumption.
      * intros n Hn. rewrite lookup_delete in Hn.
        destruct (String.eqb n cblf); [congruence|]. apply (Hstep n Hn).
      * intros n Hn He Hp Hne. rewrite lookup_delete_ne by exact Hne.
        apply Hsame; assumption.
  - exists (edges ++ pieces), d2. split.
    + cbn [value final trace]. rewrite !map_app, app_nil_r. reflexivity.
    + split; [|split].
      * intros n Hn. destruct (Hstep n Hn) as (_ & He & Hp).
        repeat split; try assumption. intros ->. congruence.
      * intros n Hn. apply (Hstep n Hn).
      * intros n Hn He Hp _. apply Hsame; assumption.
Qed.

(** ** Settled runs *)

Lemma removal_free_nil : removal_free [].
Proof. intros n []. Qed.

Lemma removal_free_app (t1 t2 : list event) :
  removal_free t1 -> removal_free t2 -> removal_free (t1 ++ t2).
Proof.
  intros H1 H2 n Hn. apply in_app_or in Hn. destruct Hn as [I|I].
  - exact (H1 n I).
  - exact (H2 n I).
Qed.

Lemma removal_free_printed (msg : string) : removal_free [Printed msg].
Proof. intros n [E|[]]. discriminate. Qed.

Lemma removal_free_wrote (path : string) (c : content) :
  removal_free [Wrote path c].
Proof. intros n [E|[]]. discriminate. Qed.

Lemma keeps_refl (d : disk) : keeps d d.
Proof. intros n Hn. exact Hn. Qed.

Lemma keeps_trans (d1 d2 d3 : disk) : keeps d1 d2 -> keeps d2 d3 -> keeps d1 d3.
Proof. intros H1 H2 n Hn. apply H2, H1, Hn. Qed.

Lemma keeps_write (path : string) (c : content) (d : disk) :
  keeps d ((path, c) :: delete path d).
Proof.
  intros n Hn. destruct (string_dec n path) as [->|Hne].
  - rewrite lookup_cons_eq. discriminate.
  - rewrite lookup_write_ne by exact Hne. exact Hn.
Qed.

Lemma settled_ret {A : Type} (a : A) (d : disk) : settled d (ret a d).
Proof.
  repeat split; [discriminate|apply removal_free_nil|apply keeps_refl].
Qed.

Lemma settled_lift {A : Type} (r : result A) (d : disk) :
  r <> NoReturn -> settled d (lift r d).
Proof.
  intros Hr. repeat split; [exact Hr|apply removal_free_nil|apply keeps_refl].
Qed.

Lemma settled_print (msg : string) (d : disk) : settled d (print msg d).
Proof.
  repeat split; [discriminate|apply removal_free_printed|apply keeps_refl].
Qed.

Lemma settled_path_exists (path : string) (d : disk) :
  settled d (path_exists path d).
Proof.
  repeat split; [discriminate|apply removal_free_nil|apply keeps_refl].
Qed.

Lemma settled_mrc_open (path : string) (d : disk) : settled d (mrc_open path d).
Proof.
  repeat split; [|apply removal_free_nil|apply keeps_refl].
  unfold mrc_open. cbn [value].
  destruct (lookup path d) as [[]|]; discriminate.
Qed.

Lemma settled_write_file (path : string) (c : content) (d : disk) :
  settled d (write_file path c d).
Proof.
  repeat split; [discriminate|apply removal_free_wrote|apply keeps_write].
Qed.

Lemma run_eta {A : Type} (r : run A) (d : disk) (t : list event)
    (v : result A) :
  final r = d -> trace r = t -> value r = v ->
  r = {| final := d; trace := t; value := v |}.
Proof. destruct r. cbn. intros -> -> ->. reflexivity. Qed.

Lemma bind_run {A B : Type} (m : M A) (k : A -> M B) (d d' : disk)
    (t : list event) (a : A) :
  m d = {| final := d'; trace := t; value := Ok a |} ->
  bind m k d =
    {| final := final (k a d'); trace := t ++ trace (k a d');
       value := value (k a d') |}.
Proof. intros Hm. unfold bind. rewrite Hm. reflexivity. Qed.

Lemma bind_raise {A B : Type} (m : M A) (k : A -> M B) (d d' : disk)
    (t : list event) (e : exn) :
  m d = {| final := d'; trace := t; value := Raise e |} ->
  bind m k d = {| final := d'; trace := t; value := Raise e |}.
Proof. intros Hm. unfold bind. rewrite Hm. reflexivity. Qed.

Lemma settled_bind {A B : Type} (m : M A) (k : A -> M B) (d : disk) :
  settled d (m d) ->
  (forall a, value (m d) = Ok a -> settled (final (m d)) (k a (final (m d)))) ->
  settled d (bind m k d).
Proof.
  intros (Hv & Hq & Hk) Hnext. unfold bind.
  destruct (value (m d)) as [a|e|] eqn:Hm; cbn [value final trace].
  - destruct (Hnext a eq_refl) as (Hv' & Hq' & Hk').
    repeat split; [exact Hv'|apply removal_free_app; assumption|].
    exact (keeps_trans _ _ _ Hk Hk').
  - repeat split; [discriminate|exact Hq|exact Hk].
  - contradiction.
Qed.

Lemma verdict_of_settled (cblf : string) (d : disk) (r : run bool) :
  settled d r -> value r <> Ok true -> verdict cblf d r.
Proof.
  intros (Hv & Hq & Hk) Hne. split; [exact Hv|]. split.
  - intros _. split; assumption.
  - intros E. contradiction.
Qed.

Lemma verdict_bind {A : Type} (cblf : string) (m : M A) (k : A -> M bool)
    (d : disk) :
  settled d (m d) ->
  (forall a, value (m d) = Ok a -> verdict cblf (final (m d)) (k a (final (m d)))) ->
  verdict cblf d (bind m k d).
Proof.
  intros (Hv & Hq & Hk) Hnext. unfold bind.
  destruct (value (m d)) as [a|e|] eqn:Hm; cbn [value final trace].
  - destruct (Hnext a eq_refl) as (Hv' & Hfail & Hok).
    split; [exact Hv'|]. split.
    + intros Hne. destruct (Hfail Hne) as [Hq' Hk'].
      split; [apply removal_free_app; assumption|].
      exact (keeps_trans _ _ _ Hk Hk').
    + intros E. destruct (Hok E) as (em & rm & Ht & Hem & Hcl).
      exists (trace (m d) ++ em), rm. rewrite Ht, app_assoc.
      split; [reflexivity|].
      split; [apply removal_free_app; assumption|exact Hcl].
  - split; [discriminate|]. split; [intros _; split; assumption|discriminate].
  - contradiction.
Qed.

(** ** The orchestrator *)

Lemma first_plane_if_3d_returns (a : ndarray) : first_plane_if_3d a <> NoReturn.
Proof.
  unfold first_plane_if_3d, first_plane.
  destruct (ndim a =? 3); [|discriminate].
  destruct (shape a) as [|n rest]; [discriminate|].
  destruct (0 <? n); discriminate.
Qed.

Lemma shape_at_returns (k : nat) (a : ndarray) : shape_at k a <> NoReturn.
Proof. unfold shape_at. destruct (nth_error (shape a) k); discriminate. Qed.

Lemma stride2_returns (f : Z) (a : ndarray) : stride2 f a <> NoReturn.
Proof.
  unfold stride2. destruct (shape a) as [|n0 [|n1 rest]]; discriminate.
Qed.

Lemma calculate_reduction_factor_returns (shp : list Z) (B : Z) :
  calculate_reduction_factor shp B <> NoReturn.
Proof.
  unfold calculate_reduction_factor, ceil_sqrt_ratio.
  destruct shp as [|s0 [|s1 rest]]; try discriminate.
  destruct (s0 * s1 <=? B); [discriminate|].
  destruct (B =? 0); [discriminate|].
  destruct (Z.sgn (s0 * s1) * Z.sgn B <? 0); discriminate.
Qed.

Lemma bdv_document_returns (name : string) (shp : list Z) (p : Q) :
  bdv_document name shp p <> NoReturn.
Proof.
  unfold bdv_document. destruct shp as [|s0 [|s1 rest]]; discriminate.
Qed.

Section Orchestrator.
Context `{Externals}.

(** With the default minimum size the OME-TIFF emitter always returns or
    raises. *)
Lemma ome_tiff_of_returns (name : string) (base0 : ndarray) (a : Q)
    (tile_size : Z) (compr : string) (f : Z) :
  ome_tiff_of name base0 a default_min_size tile_size compr f <> NoReturn.
Proof.
  destruct (Z.eq_dec (ndim base0) 2) as [E|N].
  - destruct (ndim_2 base0 E) as (h & w & Hs).
    destruct (ome_tiff_of_2d name base0 h w a default_min_size tile_size compr f
                Hs ltac:(vm_compute; discriminate)) as [t Ht].
    rewrite Ht. discriminate.
  - rewrite (ome_tiff_of_not_2d _ _ _ _ _ _ _ N). discriminate.
Qed.

Lemma settled_create_ome (path out : string) (a : Q) (tile_size : Z)
    (compr : string) (f : Z) (d : disk) :
  settled d (create_ome_bigtiff_pyramid path out a default_min_size
               tile_size compr f d).
Proof.
  unfold create_ome_bigtiff_pyramid.
  apply settled_bind; [apply settled_mrc_open|]. intros base _.
  apply settled_bind; [apply settled_lift, ome_tiff_of_returns|]. intros t _.
  apply settled_write_file.
Qed.

Lemma settled_create_bdv_xml (xml_path name : string) (shp : list Z) (p : Q)
    (d : disk) :
  settled d (create_bdv_xml xml_path name shp p d).
Proof.
  unfold create_bdv_xml.
  apply settled_bind; [apply settled_lift, bdv_document_returns|]. intros x _.
  apply settled_write_file.
Qed.

Lemma settled_create_hdf5 (path out : string) (mag : Q) (compr : string)
    (d : disk) :
  settled d (create_hdf5_pyramid path out mag compr d).
Proof.
  unfold create_hdf5_pyramid.
  apply settled_bind; [apply settled_mrc_open|]. intros base0 _.
  apply settled_bind; [apply settled_lift, first_plane_if_3d_returns|].
  intros base _.
  apply settled_bind; [apply settled_lift, stride2_returns|]. intros half _.
  apply settled_bind; [apply settled_lift, stride2_returns|]. intros quarter _.
  apply settled_bind; [apply settled_write_file|]. intros _ _.
  apply settled_create_bdv_xml.
Qed.

Lemma settled_emit (create_h5 : bool) (mrc_file cblf : string) (mag : Q)
    (shp : list Z) (large : bool) (d : disk) :
  settled d (emit create_h5 mrc_file cblf mag shp large d).
Proof.
  unfold emit.
  apply settled_bind; [apply settled_create_ome|]. intros _ _.
  destruct large; [|apply settled_ret].
  destruct create_h5; [apply settled_create_hdf5|].
  apply settled_bind; [apply settled_lift, calculate_reduction_factor_returns|].
  intros f _. apply settled_create_ome.
Qed.

Lemma settled_get_mag (path : string) (d : disk) : settled d (get_mag path d).
Proof.
  rewrite (get_mag_run path d).
  destruct (lookup path d) as [c|].
  - destruct c as [a|lines|t|f|x|];
      try (repeat split; [discriminate|apply removal_free_nil|apply keeps_refl]).
    destruct (find is_key_line lines) as [l|].
    + destruct (py_float (value_part l));
        (repeat split;
         [discriminate
         |first [apply removal_free_nil|apply removal_free_printed]
         |apply keeps_refl]).
    + repeat split; [discriminate|apply removal_free_printed|apply keeps_refl].
  - repeat split; [discriminate|apply removal_free_printed|apply keeps_refl].
Qed.

(** The conversion after stitching. *)
Lemma convert_verdict (create_h5 : bool) (mrc_file cblf : string) (mag : Q)
    (d : disk) :
  verdict cblf d (convert create_h5 mrc_file cblf mag d).
Proof.
  unfold convert.
  apply verdict_bind; [apply settled_path_exists|]. intros blended _.
  destruct blended; cbn [negb].
  - apply verdict_bind; [apply settled_mrc_open|]. intros img0 _.
    apply verdict_bind; [apply settled_lift, first_plane_if_3d_returns|].
    intros img _.
    apply verdict_bind; [apply settled_lift, shape_at_returns|]. intros s0 _.
    apply verdict_bind; [apply settled_lift, shape_at_returns|]. intros s1 _.
    apply verdict_bind; [apply settled_emit|]. intros _ _.
    set (d1 := final _).
    destruct (cleanup_run cblf d1) as (removed & d' & Hrun & Hcl & _).
    unfold bind. rewrite Hrun. cbn [value final trace ret].
    split; [discriminate|]. split; [intros N; contradiction|].
    intros _. exists [], removed. rewrite app_nil_r.
    split; [reflexivity|]. split; [apply removal_free_nil|exact Hcl].
  - apply verdict_of_settled; [|cbn; discriminate].
    apply settled_bind; [apply settled_print|]. intros _ _. apply settled_ret.
Qed.

Lemma stitch_quiet (pasta name blf : string) (d : disk) :
  value (stitch pasta name blf d) <> NoReturn /\
  trace (stitch pasta name blf d) = [].
Proof.
  unfold stitch, bind, windows_to_cygwin_path, run_cygwin_command, ret, raise, lift.
  destruct (cygwin_path pasta) as [fc|]; cbn [value final trace app];
    [|split; [discriminate|reflexivity]].
  destruct (cygwin_path name) as [cp|]; cbn [value final trace app];
    [|split; [discriminate|reflexivity]].
  match goal with |- context [snd ?x =? 0] => destruct (snd x =? 0) end;
    cbn [value final trace app]; [|split; [discriminate|reflexivity]].
  match goal with |- context [snd ?x =? 0] => destruct (snd x =? 0) end;
    cbn [value final trace app]; split; first [discriminate|reflexivity].
Qed.

(** Stitching followed by the conversion. *)
Lemma stitched_verdict (create_h5 : bool) (pasta mrc_file blf : string)
    (mag : Q) (d : disk) :
  verdict blf (final (stitch pasta mrc_file blf d))
    ((stitch pasta mrc_file blf ;; convert create_h5 mrc_file blf mag) d).
Proof.
  destruct (stitch_quiet pasta mrc_file blf d) as [Hv Ht].
  unfold bind. destruct (value (stitch pasta mrc_file blf d)) as [[]|e|] eqn:Hs;
    cbn [value final trace].
  - rewrite Ht. cbn [app].
    destruct (convert_verdict create_h5 mrc_file blf mag
                (final (stitch pasta mrc_file blf d))) as (H1 & H2 & H3).
    split; [exact H1|]. split; [exact H2|exact H3].
  - rewrite Ht. split; [discriminate|]. split; [|discriminate].
    intros _. split; [apply removal_free_nil|apply keeps_refl].
  - contradiction.
Qed.

(** The run of the body of the [try]: where it did not return [True], it
    removed nothing, and it left either the folder as it was or every file
    the stitcher left. *)
Lemma body_verdict (create_h5 : bool) (pasta mrc_file : string) (d : disk) :
  let cblf := (path_stem mrc_file ++ "_blended.mrc")%string in
  let rb := process_body create_h5 pasta mrc_file d in
  value rb <> NoReturn /\
  (value rb <> Ok true ->
   removal_free (trace rb) /\
   (final rb = d \/ keeps (final (stitch pasta mrc_file cblf d)) (final rb))) /\
  (value rb = Ok true ->
   exists emitted removed,
     trace rb = emitted ++ map Removed removed /\
     removal_free emitted /\
     cleaned cblf (final rb)).
Proof.
  intros cblf rb. subst rb. unfold process_body.
  set (mdoc := with_suffix mrc_file (path_suffix mrc_file ++ ".mdoc")).
  fold cblf.
  assert (Hfail : forall msg tr,
            removal_free tr ->
            let r := {| final := final ((print msg ;; ret false) d);
                        trace := tr ++ trace ((print msg ;; ret false) d);
                        value := value ((print msg ;; ret (A := bool) false) d) |} in
            value r <> NoReturn /\
            (value r <> Ok true ->
             removal_free (trace r) /\
             (final r = d \/
              keeps (final (stitch pasta mrc_file cblf d)) (final r))) /\
            (value r = Ok true ->
             exists emitted removed,
               trace r = emitted ++ map Removed removed /\
               removal_free emitted /\ cleaned cblf (final r))).
  { intros msg tr Htr r. subst r. cbn. split; [discriminate|].
    split; [|discriminate]. intros _. split; [|left; reflexivity].
    apply removal_free_app; [exact Htr|apply removal_free_printed]. }
  rewrite (bind_run (path_exists mdoc) _ d d []
             (match lookup mdoc d with Some _ => true | None => false end)
             eq_refl).
  destruct (lookup mdoc d) as [c|] eqn:Hl; cbn [negb].
  2:{ apply Hfail. apply removal_free_nil. }
  cbn [app].
  pose proof (get_mag_run mdoc d) as Hg. rewrite Hl in Hg.
  destruct c as [a|lines|t|f|x|];
    try (rewrite (bind_raise _ _ _ _ _ _ Hg); cbn;
         split; [discriminate|]; split; [|discriminate];
         intros _; split; [apply removal_free_nil|left; reflexivity]).
  destruct (find is_key_line lines) as [l|].
  2:{ rewrite (bind_run _ _ _ _ _ _ Hg). apply Hfail. apply removal_free_printed. }
  destruct (py_float (value_part l)) as [mag|].
  2:{ rewrite (bind_run _ _ _ _ _ _ Hg). apply Hfail. apply removal_free_printed. }
  rewrite (bind_run _ _ _ _ _ _ Hg). cbn [app].
  destruct (stitched_verdict create_h5 pasta mrc_file cblf mag d)
    as (H1 & H2 & H3).
  split; [exact H1|]. split; [|exact H3].
  intros Hne. destruct (H2 Hne) as [Hq Hk]. split; [exact Hq|right; exact Hk].
Qed.

Lemma process_mrc_file_returns (create_h5 : bool) (pasta mrc_file : string)
    (d : disk) :
  exists ok, value (process_mrc_file create_h5 pasta mrc_file d) = Ok ok.
Proof.
  destruct (body_verdict create_h5 pasta mrc_file d) as (Hv & _).
  unfold process_mrc_file, try_except.
  destruct (value (process_body create_h5 pasta mrc_file d)) as [b|e|] eqn:Hb.
  - exists b. exact Hb.
  - exists false. reflexivity.
  - contradiction.
Qed.

Lemma bind_value {A B : Type} (m : M A) (k : A -> M B) (d : disk) (a : A) :
  value (m d) = Ok a -> value (bind m k d) = value (k a (final (m d))).
Proof. intros Hm. unfold bind. rewrite Hm. reflexivity. Qed.


End Orchestrator.


(** ** Large images *)

Lemma string_app_inv_head (s a b : string) :
  (s ++ a)%string = (s ++ b)%string -> a = b.
Proof.
  induction s as [|c s IH]; cbn [String.append]; intros E; [exact E|].
  injection E as E. exact (IH E).
Qed.

Section LargeImages.
Context `{Externals}.

Variables (mrc_file : string) (mag : Q) (img : ndarray) (h w : Z) (d2 : disk).

Let cblf : string := (path_stem mrc_file ++ "_blended.mrc")%string.
Let output_tiff : string := with_suffix mrc_file ".ome.tif".
Let output_h5 : string := with_suffix mrc_file ".h5".
Let output_tiff_reduced : string :=
  (path_stem mrc_file ++ "_reduced.ome.tif")%string.

Hypothesis blended : lookup cblf d2 = Some (MrcFile img).
Hypothesis img_shape : shape img = [h; w].
Hypothesis large : large_image_pixels < h * w.




End LargeImages.



(** The image of the specification's third scenario, 40001 x 30001, has
    1200070001 pixels and is not a large image. *)
Example scenario_3_is_not_large :
  (large_image_pixels <? 40001 * 30001) = false.
Proof. reflexivity. Qed.

(** * Further properties *)

(** ** Locating Cygwin *)

Lemma first_existing_spec (exists_ : string -> bool) (paths : list string) :
  match first_existing exists_ paths with
  | Ok p =>
      exists_ p = true /\
      exists before after,
        paths = before ++ p :: after /\
        forall q, In q before -> exists_ q = false
  | Raise e =>
      e = FileNotFoundError /\ forall q, In q paths -> exists_ q = false
  | NoReturn => False
  end.
Proof.
  induction paths as [|x paths IH]; cbn [first_existing].
  - split; [reflexivity|]. intros q [].
  - destruct (exists_ x) eqn:Hx.
    + split; [exact Hx|]. exists [], paths. split; [reflexivity|]. intros q [].
    + destruct (first_existing exists_ paths) as [p|e|].
      * destruct IH as (Hp & before & after & -> & Hb).
        split; [exact Hp|]. exists (x :: before), after.
        split; [reflexivity|]. intros q [<-|Hq]; [exact Hx|exact (Hb q Hq)].
      * destruct IH as [-> Hall]. split; [reflexivity|].
        intros q [<-|Hq]; [exact Hx|exact (Hall q Hq)].
      * exact IH.
Qed.

(** The path returned for Cygwin's bash exists.  It is the embedded one when
    the program is frozen and that file exists, and otherwise the first of
    the four installation paths that exists; [FileNotFoundError] is raised
    only when none of the candidates exists. *)
Theorem get_cygwin_bash_path_spec (env : host) :
  match get_cygwin_bash_path env with
  | Ok p =>
      os_path_exists env p = true /\
      ((frozen env = true /\ p = embedded_bash env) \/
       ((frozen env = false \/ os_path_exists env (embedded_bash env) = false) /\
        exists before after,
          possible_paths = before ++ p :: after /\
          forall q, In q before -> os_path_exists env q = false))
  | Raise e =>
      e = FileNotFoundError /\
      (forall q, In q possible_paths -> os_path_exists env q = false) /\
      (frozen env = false \/ os_path_exists env (embedded_bash env) = false)
  | NoReturn => False
  end.
Proof.
  unfold get_cygwin_bash_path.
  destruct (frozen env) eqn:Hf; cbn [andb].
  - destruct (os_path_exists env (embedded_bash env)) eqn:He.
    + split; [exact He|]. left. split; reflexivity.
    + pose proof (first_existing_spec (os_path_exists env) possible_paths) as Hs.
      destruct (first_existing (os_path_exists env) possible_paths) as [p|e|].
      * destruct Hs as [Hp Hrest]. split; [exact Hp|]. right.
        split; [right; reflexivity|exact Hrest].
      * destruct Hs as [-> Hall]. repeat split; [exact Hall|right; reflexivity].
      * exact Hs.
  - pose proof (first_existing_spec (os_path_exists env) possible_paths) as Hs.
    destruct (first_existing (os_path_exists env) possible_paths) as [p|e|].
    + destruct Hs as [Hp Hrest]. split; [exact Hp|]. right.
      split; [left; reflexivity|exact Hrest].
    + destruct Hs as [-> Hall]. repeat split; [exact Hall|left; reflexivity].
    + exact Hs.
Qed.

(** ** Path translation *)





(** ** More on the reduction policy *)

Lemma cdiv_le_mono (a b c : Z) : 0 < c -> a <= b -> cdiv a c <= cdiv b c.
Proof.
  intros Hc Hab. pose proof (cdiv_spec a c Hc). pose proof (cdiv_spec b c Hc).
  nia.
Qed.

Lemma calculate_reduction_factor_value (h w B : Z) :
  0 < B ->
  calculate_reduction_factor [h; w] B =
  Ok (if h * w <=? B then 1 else Z.sqrt_up (cdiv (h * w) B)).
Proof.
  intros HB. unfold calculate_reduction_factor, ceil_sqrt_ratio.
  destruct (Z.leb_spec (h * w) B) as [L|L]; [reflexivity|].
  destruct (Z.eqb_spec B 0); [lia|].
  rewrite (Z.sgn_pos (h * w)), (Z.sgn_pos B) by lia.
  change (1 * 1 <? 0) with false. cbv iota.
  rewrite (Z.abs_eq (h * w)), (Z.abs_eq B) by lia. reflexivity.
Qed.

(** For a positive budget the policy always returns a factor of at least 1,
    and an image with more pixels never gets a smaller factor. *)
Theorem calculate_reduction_factor_mono (h w h' w' B : Z) :
  0 < B -> h * w <= h' * w' ->
  exists f f',
    calculate_reduction_factor [h; w] B = Ok f /\
    calculate_reduction_factor [h'; w'] B = Ok f' /\
    1 <= f <= f'.
Proof.
  intros HB Hle.
  rewrite !calculate_reduction_factor_value by exact HB.
  eexists _, _. split; [reflexivity|]. split; [reflexivity|].
  destruct (Z.leb_spec (h * w) B) as [L|L];
    destruct (Z.leb_spec (h' * w') B) as [L'|L']; try lia.
  - assert (1 <= cdiv (h' * w') B) by (apply cdiv_ge; lia).
    pose proof (Z.sqrt_up_le_mono 1 _ H). rewrite Z.sqrt_up_1 in H0. lia.
  - assert (1 <= cdiv (h * w) B) by (apply cdiv_ge; lia).
    pose proof (Z.sqrt_up_le_mono 1 _ H). rewrite Z.sqrt_up_1 in H0.
    pose proof (Z.sqrt_up_le_mono _ _ (cdiv_le_mono _ _ B HB Hle)). lia.
Qed.

Lemma calculate_reduction_factor_mono_witness :
  exists f f',
    calculate_reduction_factor [40000; 30000] default_target_pixels = Ok f /\
    calculate_reduction_factor [80000; 60000] default_target_pixels = Ok f' /\
    f = 2 /\ f' = 3.
Proof.
  destruct (calculate_reduction_factor_mono 40000 30000 80000 60000
              default_target_pixels eq_refl ltac:(vm_compute; discriminate))
    as (f & f' & Hf & Hf' & _).
  exists f, f'. split; [exact Hf|]. split; [exact Hf'|].
  vm_compute in Hf, Hf'. injection Hf as <-. injection Hf' as <-.
  split; reflexivity.
Defined.

(** A shape with fewer than two dimensions raises [IndexError]; a budget
    of zero raises [ZeroDivisionError] and a negative budget [ValueError]
    as soon as the image has a pixel. *)
Theorem calculate_reduction_factor_errors (h w B : Z) :
  0 < h * w ->
  calculate_reduction_factor [] B = Raise IndexError /\
  calculate_reduction_factor [h] B = Raise IndexError /\
  (B = 0 -> calculate_reduction_factor [h; w] B = Raise ZeroDivisionError) /\
  (B < 0 ->
   calculate_reduction_factor [h; w] B
   = Raise (ValueError "cannot convert float NaN to integer")).
Proof.
  intros Hp. split; [reflexivity|]. split; [reflexivity|].
  unfold calculate_reduction_factor, ceil_sqrt_ratio. split.
  - intros ->. destruct (Z.leb_spec (h * w) 0); [lia|]. reflexivity.
  - intros HB. destruct (Z.leb_spec (h * w) B); [lia|].
    destruct (Z.eqb_spec B 0); [lia|].
    rewrite (Z.sgn_pos (h * w)), (Z.sgn_neg B) by lia. reflexivity.
Qed.

Lemma calculate_reduction_factor_errors_witness :
  calculate_reduction_factor [4000; 3000] 0 = Raise ZeroDivisionError.
Proof.
  destruct (calculate_reduction_factor_errors 4000 3000 0 eq_refl)
    as (_ & _ & Hz & _).
  exact (Hz eq_refl).
Defined.

(** ** Stride subsampling *)

Lemma strided_len_twice (n : Z) :
  strided_len (strided_len n 2) 2 = strided_len n 4.
Proof.
  unfold strided_len.
  pose proof (cdiv_spec n 2 ltac:(lia)).
  pose proof (cdiv_spec n 4 ltac:(lia)).
  pose proof (cdiv_spec (Z.max 0 (cdiv n 2)) 2 ltac:(lia)).
  lia.
Qed.

(** Two stride-2 subsamplings are one stride-4 subsampling: the level
    [res2] of the HDF5 file is the stride-2 subsample of [res1]. *)
Theorem stride2_compose (base half quarter : ndarray) (h w : Z) :
  shape base = [h; w] ->
  stride2 2 base = Ok half ->
  stride2 4 base = Ok quarter ->
  exists q,
    stride2 2 half = Ok q /\
    shape q = shape quarter /\
    dtype q = dtype quarter /\
    forall r c, at_index q [r; c] = at_index quarter [r; c].
Proof.
  intros Hs Hh Hq. unfold stride2 in Hh, Hq. rewrite Hs in Hh, Hq.
  injection Hh as <-. injection Hq as <-.
  eexists. split; [reflexivity|]. cbn [shape dtype at_index].
  rewrite !strided_len_twice. split; [reflexivity|]. split; [reflexivity|].
  intros r c.
  change (at_index base [2 * (2 * r); 2 * (2 * c)] = at_index base [4 * r; 4 * c]).
  replace (2 * (2 * r)) with (4 * r) by lia.
  replace (2 * (2 * c)) with (4 * c) by lia. reflexivity.
Qed.

Lemma stride2_compose_witness :
  exists half quarter q,
    stride2 2 (ramp 9 9) = Ok half /\
    stride2 4 (ramp 9 9) = Ok quarter /\
    stride2 2 half = Ok q /\
    shape q = [3; 3] /\
    at_index q [2; 1] = at_index quarter [2; 1].
Proof.
  destruct (stride2_compose (ramp 9 9)
              {| dtype := "int16";
                 shape := [strided_len 9 2; strided_len 9 2];
                 at_index := fun ix =>
                   match ix with
                   | i :: j :: r => at_index (ramp 9 9) (2 * i :: 2 * j :: r)
                   | _ => at_index (ramp 9 9) ix
                   end |}
              {| dtype := "int16";
                 shape := [strided_len 9 4; strided_len 9 4];
                 at_index := fun ix =>
                   match ix with
                   | i :: j :: r => at_index (ramp 9 9) (4 * i :: 4 * j :: r)
                   | _ => at_index (ramp 9 9) ix
                   end |}
              9 9 eq_refl eq_refl eq_refl) as (q & Hq & Hsh & _ & Hat).
  eexists _, _, q. split; [reflexivity|]. split; [reflexivity|].
  split; [exact Hq|]. split; [rewrite Hsh; reflexivity|apply Hat].
Defined.

(** ** More on the pyramid *)

Section PyramidLevels.
Context `{Externals}.

Lemma iter_reduce_2d (k : nat) :
  forall (base : ndarray) (h w : Z),
    shape base = [h; w] ->
    dtype (iter_reduce k base) = dtype base /\
    exists hk wk, shape (iter_reduce k base) = [hk; wk].
Proof.
  induction k as [|k IH]; intros base h w Hs.
  - split; [reflexivity|]. exists h, w. exact Hs.
  - cbn [iter_reduce].
    destruct (IH (pyramid_reduce base) _ _ (pyramid_reduce_shape_2d base h w Hs))
      as [Hd Hsh].
    split; [rewrite Hd; reflexivity|exact Hsh].
Qed.

(** Every level of the pyramid is 2D and has the element type of the base,
    and no level above the base has a dimension below the minimum size. *)
Theorem pyramid_levels_invariant (base : ndarray) (h w m : Z)
    (pyramid : list ndarray) :
  shape base = [h; w] -> 1 <= m ->
  build_pyramid m base = Ok pyramid ->
  forall k a,
    nth_error pyramid k = Some a ->
    dtype a = dtype base /\
    ndim a = 2 /\
    ((1 <= k)%nat -> m <= min_shape a).
Proof.
  intros Hs Hm Hp k a Ha.
  destruct (build_pyramid_levels m base pyramid Hp) as (n & Hlv & Hall & _).
  rewrite Hlv, nth_error_map_seq in Ha.
  destruct (Nat.ltb_spec k (S n)) as [Hk|]; [|discriminate].
  injection Ha as <-.
  destruct (iter_reduce_2d k base h w Hs) as (Hd & hk & wk & Hsh).
  split; [exact Hd|]. split; [unfold ndim; rewrite Hsh; reflexivity|].
  intros Hk1. destruct k as [|j]; [lia|].
  rewrite iter_reduce_succ.
  destruct (iter_reduce_2d j base h w Hs) as (_ & hj & wj & Hsj).
  rewrite (min_shape_reduce _ hj wj Hsj).
  specialize (Hall j ltac:(lia)).
  apply cdiv_ge; lia.
Qed.

Lemma map_const {A B : Type} (b : B) (l : list A) :
  map (fun _ => b) l = repeat b (List.length l).
Proof.
  induction l as [|x l IH]; [reflexivity|]. cbn. rewrite IH. reflexivity.
Qed.

(** The TIFF file has one page per pyramid level, in order.  All pages are
    written as [minisblack] with the same tile and compression; only the
    first page announces the sub-resolutions, one per further level, and
    only the first page carries the OME description. *)
Theorem tiff_layout (name : string) (base0 : ndarray) (h w : Z) (a : Q)
    (m tile_size : Z) (compr : string) (f : Z) (t : tiff_file) :
  shape base0 = [h; w] -> 1 <= m ->
  ome_tiff_of name base0 a m tile_size compr f = Ok t ->
  exists base spacing pyramid ome,
    apply_reduction f a base0 = Ok (base, spacing) /\
    build_pyramid m base = Ok pyramid /\
    bigtiff t = true /\
    map page_data (pages t) = pyramid /\
    map subifds (pages t) =
      Some (Z.of_nat (List.length pyramid) - 1)
      :: repeat None (List.length pyramid - 1) /\
    map description (pages t) =
      Some ome :: repeat None (List.length pyramid - 1) /\
    forall pg, In pg (pages t) ->
      photometric pg = "minisblack" /\
      tile pg = (tile_size, tile_size) /\
      compression pg = compr.
Proof.
  intros Hs Hm Ht. unfold ome_tiff_of in Ht.
  assert (Hnd : (ndim base0 =? 2) = true) by (unfold ndim; rewrite Hs; reflexivity).
  rewrite Hnd in Ht. cbn [negb] in Ht.
  destruct (apply_reduction_2d f a base0 h w Hs)
    as (base & h' & w' & Hred & Hbs & _).
  rewrite Hred in Ht.
  destruct (build_pyramid_returns m base h' w' Hm Hbs) as [p Hp].
  rewrite Hp in Ht. injection Ht as <-.
  destruct (build_pyramid_levels m base p Hp) as (n & Hlv & _).
  destruct p as [|level0 rest]; [discriminate|].
  eexists base, _, (level0 :: rest), _.
  split; [exact Hred|]. split; [exact Hp|]. split; [reflexivity|].
  cbn [pages tiff_pages map page_data subifds description List.length].
  rewrite !map_map. cbn [page_data subifds description].
  rewrite map_id, !map_const.
  replace (S (List.length rest) - 1)%nat with (List.length rest) by lia.
  split; [reflexivity|]. split; [reflexivity|]. split; [reflexivity|].
  intros pg [<-|Hin]; [repeat split|].
  apply in_map_iff in Hin. destruct Hin as (lv & <- & _). repeat split.
Qed.

End PyramidLevels.

Lemma pyramid_levels_invariant_witness :
  exists pyramid,
    @build_pyramid (toy "" None) default_min_size (blank [3000; 4000])
      = Ok pyramid /\
    forall k a, nth_error pyramid k = Some a ->
      (1 <= k)%nat -> default_min_size <= min_shape a.
Proof.
  exists [ blank [3000; 4000];
           @pyramid_reduce (toy "" None) (blank [3000; 4000]);
           @pyramid_reduce (toy "" None)
             (@pyramid_reduce (toy "" None) (blank [3000; 4000])) ].
  split; [reflexivity|].
  intros k a Ha.
  apply (@pyramid_levels_invariant (toy "" None) (blank [3000; 4000])
           3000 4000 default_min_size _ eq_refl
           ltac:(vm_compute; discriminate) eq_refl k a Ha).
Defined.

Lemma tiff_layout_witness :
  exists t,
    @ome_tiff_of (toy "" None) "a_blended.mrc" (blank [3000; 4000]) (3 # 2)
      default_min_size default_tile_size default_compression 1 = Ok t /\
    map (fun pg => shape (page_data pg)) (pages t)
      = [[3000; 4000]; [1500; 2000]; [750; 1000]] /\
    map subifds (pages t) = [Some 2; None; None].
Proof.
  eexists. split; [reflexivity|].
  destruct (@tiff_layout (toy "" None) "a_blended.mrc" (blank [3000; 4000])
              3000 4000 (3 # 2) default_min_size default_tile_size
              default_compression 1 _ eq_refl
              ltac:(vm_compute; discriminate) eq_refl)
    as (base & spacing & pyramid & ome & Hred & Hp & _ & Hdata & Hsub & _).
  unfold apply_reduction in Hred. cbn [Z.ltb Z.compare Pos.compare] in Hred.
  injection Hred as <- <-.
  vm_compute in Hp. injection Hp as <-.
  split; [reflexivity|exact Hsub].
Defined.

(** ** The HDF5 emitter and the rank of the input *)

(** The HDF5 emitter has no rank check of its own.  It goes through with a
    stack that has a plane and with any other array of two or more
    dimensions, a 4D one included; otherwise indexing raises [IndexError]
    before anything is written. *)
Theorem create_hdf5_pyramid_rank (path out : string) (base0 : ndarray)
    (mag : Q) (compr : string) (d : disk) :
  lookup path d = Some (MrcFile base0) ->
  let r := create_hdf5_pyramid path out mag compr d in
  if h5_accepts (shape base0) then
    value r = Ok tt /\
    exists h x, trace r = [Wrote out (H5File h);
                           Wrote (with_suffix out ".xml") (XmlFile x)]
  else r = {| final := d; trace := []; value := Raise IndexError |}.
Proof.
  intros Hl r. subst r. unfold create_hdf5_pyramid.
  rewrite (bind_run (mrc_open path) _ d d [] base0)
    by (unfold mrc_open; rewrite Hl; reflexivity).
  cbn [app].
  unfold first_plane_if_3d, first_plane, ndim, stride2, create_bdv_xml,
    bdv_document, bind, lift, write_file.
  destruct (shape base0) as [|s0 [|s1 [|s2 [|s3 rest]]]] eqn:Hs;
    cbn [List.length h5_accepts].
  - repeat (progress (cbn; rewrite ?Hs)). reflexivity.
  - repeat (progress (cbn; rewrite ?Hs)). reflexivity.
  - repeat (progress (cbn; rewrite ?Hs)). split; [reflexivity|].
    eexists _, _. reflexivity.
  - change (Z.of_nat 3 =? 3) with true. cbv iota.
    destruct (0 <? s0); cbn; [|reflexivity].
    split; [reflexivity|]. eexists _, _. reflexivity.
  - destruct (Z.eqb_spec (Z.of_nat (S (S (S (S (List.length rest)))))) 3) as [E|_];
      [lia|].
    repeat (progress (cbn; rewrite ?Hs)). split; [reflexivity|].
    eexists _, _. reflexivity.
Qed.

Lemma create_hdf5_pyramid_rank_witness :
  value (create_hdf5_pyramid "v.mrc" "v.h5" (3 # 2) "gzip"
           [("v.mrc", MrcFile (blank [2; 3; 30; 40]))]) = Ok tt /\
  value (create_hdf5_pyramid "v.mrc" "v.h5" (3 # 2) "gzip"
           [("v.mrc", MrcFile (blank [0; 30; 40]))]) = Raise IndexError.
Proof.
  split.
  - apply (create_hdf5_pyramid_rank "v.mrc" "v.h5" (blank [2; 3; 30; 40])
             (3 # 2) "gzip" [("v.mrc", MrcFile (blank [2; 3; 30; 40]))] eq_refl).
  - rewrite (create_hdf5_pyramid_rank "v.mrc" "v.h5" (blank [0; 30; 40])
               (3 # 2) "gzip" [("v.mrc", MrcFile (blank [0; 30; 40]))] eq_refl).
    reflexivity.
Defined.

(** ** File names *)

Lemma string_app_nil_r (s : string) : (s ++ "")%string = s.
Proof. induction s as [|c s IH]; [reflexivity|]. cbn. rewrite IH. reflexivity. Qed.

Lemma string_app_assoc (a b c : string) :
  ((a ++ b) ++ c)%string = (a ++ (b ++ c))%string.
Proof. induction a as [|x a IH]; [reflexivity|]. cbn. rewrite IH. reflexivity. Qed.

Lemma string_app_length (a b : string) :
  String.length (a ++ b) = (String.length a + String.length b)%nat.
Proof. induction a as [|x a IH]; [reflexivity|]. cbn. rewrite IH. reflexivity. Qed.

Lemma substring_all (s : string) : substring 0 (String.length s) s = s.
Proof. induction s as [|c s IH]; [reflexivity|]. cbn. rewrite IH. reflexivity. Qed.

Lemma substring_split (s : string) :
  forall i, (i <= String.length s)%nat ->
    (substring 0 i s ++ substring i (String.length s - i) s)%string = s.
Proof.
  induction s as [|c s IH]; intros i Hi.
  - cbn in Hi. assert (i = O) by lia. subst i. reflexivity.
  - destruct i as [|i].
    + rewrite Nat.sub_0_r, substring_all. reflexivity.
    + cbn [substring String.append String.length Nat.sub].
      rewrite IH by (cbn in Hi; lia). reflexivity.
Qed.

Lemma substring_app_head (a b : string) :
  substring 0 (String.length a) (a ++ b) = a.
Proof.
  induction a as [|x a IH]; [destruct b; reflexivity|].
  cbn. rewrite IH. reflexivity.
Qed.

Lemma rfind_dot_bound (s : string) (i : nat) :
  rfind_dot s = Some i -> (i < String.length s)%nat.
Proof.
  revert i. induction s as [|c s IH]; intros i; cbn [rfind_dot]; [discriminate|].
  destruct (rfind_dot s) as [j|].
  - intros E. injection E as <-. specialize (IH j eq_refl). cbn. lia.
  - destruct (Ascii.eqb c "."); [|discriminate].
    intros E. injection E as <-. cbn. lia.
Qed.

(** A name is its stem followed by its suffix. *)
Lemma stem_suffix (name : string) :
  (path_stem name ++ path_suffix name)%string = name.
Proof.
  unfold path_stem, path_suffix.
  destruct (rfind_dot name) as [i|] eqn:Hr; [|apply string_app_nil_r].
  destruct ((0 <? i) && (i <? String.length name - 1))%nat;
    [|apply string_app_nil_r].
  apply substring_split. pose proof (rfind_dot_bound name i Hr). lia.
Qed.

(** The last dot of [stem.ext], for an extension without a dot, is the one
    before the extension. *)
Lemma rfind_dot_app (s ext : string) :
  rfind_dot ext = None ->
  rfind_dot (s ++ String "." ext) = Some (String.length s).
Proof.
  intros He. induction s as [|c s IH].
  - cbn. rewrite He. reflexivity.
  - cbn [String.append rfind_dot String.length]. rewrite IH. reflexivity.
Qed.

Lemma path_stem_app (s ext : string) :
  s <> EmptyString -> ext <> EmptyString -> rfind_dot ext = None ->
  path_stem (s ++ String "." ext) = s.
Proof.
  intros Hs Hext He. unfold path_stem. rewrite (rfind_dot_app s ext He).
  rewrite string_app_length. cbn [String.length].
  assert (H0 : (0 < String.length s)%nat) by (destruct s; [congruence|cbn; lia]).
  assert (H1 : (0 < String.length ext)%nat) by (destruct ext; [congruence|cbn; lia]).
  destruct (Nat.ltb_spec 0 (String.length s)); [|lia].
  destruct (Nat.ltb_spec (String.length s)
              (String.length s + S (String.length ext) - 1)); [|lia].
  cbn [andb]. apply substring_app_head.
Qed.

Lemma path_stem_nonempty (name : string) :
  name <> EmptyString -> path_stem name <> EmptyString.
Proof.
  intros Hn. unfold path_stem.
  destruct (rfind_dot name) as [i|] eqn:Hr; [|exact Hn].
  destruct (Nat.ltb_spec 0 i) as [Hi|]; [|exact Hn].
  destruct (i <? String.length name - 1)%nat; [|exact Hn]. cbn [andb].
  destruct name as [|c name]; [congruence|].
  destruct i as [|i]; [lia|]. cbn. discriminate.
Qed.

Lemma mdoc_name (name : string) :
  with_suffix name (path_suffix name ++ ".mdoc") = (name ++ ".mdoc")%string.
Proof.
  unfold with_suffix. rewrite <- string_app_assoc, stem_suffix. reflexivity.
Qed.

(** The files of one input.  The descriptor read is the input's name
    followed by [.mdoc]; the descriptor written beside [stem.h5] is
    [stem.xml]; and the four outputs and the blended image have five
    different names, so that none overwrites another. *)
Theorem file_names (mrc_file : string) :
  mrc_file <> EmptyString ->
  let stem := path_stem mrc_file in
  with_suffix mrc_file (path_suffix mrc_file ++ ".mdoc") = (mrc_file ++ ".mdoc")%string /\
  with_suffix mrc_file ".ome.tif" = (stem ++ ".ome.tif")%string /\
  with_suffix mrc_file ".h5" = (stem ++ ".h5")%string /\
  with_suffix (with_suffix mrc_file ".h5") ".xml" = (stem ++ ".xml")%string /\
  NoDup [ (stem ++ ".ome.tif")%string;
          (stem ++ ".h5")%string;
          (stem ++ ".xml")%string;
          (stem ++ "_reduced.ome.tif")%string;
          (stem ++ "_blended.mrc")%string ].
Proof.
  intros Hn stem. split; [|split; [|split; [|split]]].
  - apply mdoc_name.
  - reflexivity.
  - reflexivity.
  - subst stem. unfold with_suffix.
    rewrite (path_stem_app (path_stem mrc_file) "h5"
               (path_stem_nonempty mrc_file Hn) ltac:(discriminate) eq_refl).
    reflexivity.
  - repeat constructor; cbn [In]; intros Hin;
      repeat (destruct Hin as [Hin|Hin];
              [apply string_app_inv_head in Hin; discriminate|]);
      exact Hin.
Qed.

Lemma file_names_witness :
  with_suffix "grid.1.mrc" (path_suffix "grid.1.mrc" ++ ".mdoc") = "grid.1.mrc.mdoc" /\
  with_suffix (with_suffix "grid.1.mrc" ".h5") ".xml" = "grid.1.xml".
Proof.
  destruct (file_names "grid.1.mrc" ltac:(discriminate))
    as (Hm & _ & _ & Hx & _).
  split; [exact Hm|exact Hx].
Defined.

(** ** Files that are skipped *)

Lemma try_except_value {A : Type} (m : M A) (handler : exn -> M A) (d : disk)
    (a : A) :
  value (m d) = Ok a -> try_except m handler d = m d.
Proof. intros Hv. unfold try_except. rewrite Hv. reflexivity. Qed.

Lemma try_except_raise {A : Type} (m : M A) (handler : exn -> M A)
    (d d' : disk) (t : list event) (e : exn) :
  m d = {| final := d'; trace := t; value := Raise e |} ->
  try_except m handler d =
    {| final := final (handler e d'); trace := t ++ trace (handler e d');
       value := value (handler e d') |}.
Proof. intros Hm. unfold try_except. rewrite Hm. reflexivity. Qed.

Section Skips.
Context `{Externals}.

Variables (create_h5 : bool) (pasta mrc_file : string) (d : disk).

Let mdoc_file : string := (mrc_file ++ ".mdoc")%string.
Let cblf : string := (path_stem mrc_file ++ "_blended.mrc")%string.

(** Once the descriptor has given a calibration, the body of the [try] is
    the stitching followed by the conversion. *)
Lemma process_body_calibrated (mag : Q) :
  get_mag mdoc_file d = {| final := d; trace := []; value := Ok (Some mag) |} ->
  lookup mdoc_file d <> None ->
  process_body create_h5 pasta mrc_file d =
  (stitch pasta mrc_file cblf ;; convert create_h5 mrc_file cblf mag) d.
Proof.
  intros Hg Hl. unfold process_body. rewrite mdoc_name. fold mdoc_file cblf.
  rewrite (bind_run (path_exists mdoc_file) _ d d [] true).
  2:{ unfold path_exists. destruct (lookup mdoc_file d); [reflexivity|congruence]. }
  cbn [negb app]. rewrite (bind_run _ _ _ _ _ _ Hg). cbn [app].
  destruct ((stitch pasta mrc_file cblf;; convert create_h5 mrc_file cblf mag) d).
  reflexivity.
Qed.

(** Without a descriptor named after the input the file is skipped: the
    run prints one warning, returns [False], and leaves the folder as it
    was, the stitcher not having been started. *)
Theorem missing_descriptor :
  lookup mdoc_file d = None ->
  process_mrc_file create_h5 pasta mrc_file d =
    {| final := d;
       trace := [Printed ("Warning: No .mdoc file found for " ++ mrc_file)];
       value := Ok false |}.
Proof.
  intros Hl.
  assert (Hb : process_body create_h5 pasta mrc_file d =
               {| final := d;
                  trace := [Printed ("Warning: No .mdoc file found for " ++ mrc_file)];
                  value := Ok false |}).
  { unfold process_body. rewrite mdoc_name. fold mdoc_file.
    rewrite (bind_run (path_exists mdoc_file) _ d d [] false)
      by (unfold path_exists; rewrite Hl; reflexivity).
    reflexivity. }
  unfold process_mrc_file.
  rewrite (try_except_value _ _ d false) by (rewrite Hb; reflexivity).
  exact Hb.
Qed.

(** With a descriptor from which no calibration is read the file is
    skipped as well: after the reader's own message the run prints one
    warning, returns [False], and leaves the folder as it was. *)
Theorem unreadable_calibration :
  lookup mdoc_file d <> None ->
  value (get_mag mdoc_file d) = Ok None ->
  process_mrc_file create_h5 pasta mrc_file d =
    {| final := d;
       trace := trace (get_mag mdoc_file d) ++
                [Printed ("Warning: Could not read pixel size from " ++ mdoc_file)];
       value := Ok false |}.
Proof.
  intros Hl Hv.
  assert (Hf : final (get_mag mdoc_file d) = d).
  { rewrite (get_mag_run mdoc_file d).
    destruct (lookup mdoc_file d) as [[a|lines|t|f|x|]|]; try reflexivity.
    destruct (find is_key_line lines) as [l|]; [|reflexivity].
    destruct (py_float (value_part l)); reflexivity. }
  pose proof (run_eta (get_mag mdoc_file d) d _ _ Hf eq_refl Hv) as Hg.
  assert (Hb : process_body create_h5 pasta mrc_file d =
               {| final := d;
                  trace := trace (get_mag mdoc_file d) ++
                           [Printed ("Warning: Could not read pixel size from "
                                     ++ mdoc_file)];
                  value := Ok false |}).
  { unfold process_body. rewrite mdoc_name. fold mdoc_file.
    rewrite (bind_run (path_exists mdoc_file) _ d d [] true).
    2:{ unfold path_exists. destruct (lookup mdoc_file d); [reflexivity|congruence]. }
    cbn [negb app]. rewrite (bind_run _ _ _ _ _ _ Hg). reflexivity. }
  unfold process_mrc_file.
  rewrite (try_except_value _ _ d false) by (rewrite Hb; reflexivity).
  exact Hb.
Qed.

End Skips.

Lemma missing_descriptor_witness :
  @process_mrc_file (toy "a_blended.mrc" None) true "dir" "a.mrc"
    [("a.mrc", Binary)]
  = {| final := [("a.mrc", Binary)];
       trace := [Printed "Warning: No .mdoc file found for a.mrc"];
       value := Ok false |}.
Proof.
  exact (@missing_descriptor (toy "a_blended.mrc" None) true "dir" "a.mrc"
           [("a.mrc", Binary)] eq_refl).
Defined.

Lemma unreadable_calibration_witness :
  @process_mrc_file (toy "a_blended.mrc" None) true "dir" "a.mrc"
    [("a.mrc", Binary); ("a.mrc.mdoc", TextFile ["PixelSpacing = n/a"])]
  = {| final := [("a.mrc", Binary);
                 ("a.mrc.mdoc", TextFile ["PixelSpacing = n/a"])];
       trace := [Printed msg_no_float;
                 Printed "Warning: Could not read pixel size from a.mrc.mdoc"];
       value := Ok false |}.
Proof.
  exact (@unreadable_calibration (toy "a_blended.mrc" None) true "dir" "a.mrc"
           [("a.mrc", Binary); ("a.mrc.mdoc", TextFile ["PixelSpacing = n/a"])]
           ltac:(vm_compute; discriminate) eq_refl).
Defined.

(** ** Failures of the stitcher *)

Section StitcherFailures.
Context `{Externals}.

Variables (create_h5 : bool) (pasta mrc_file : string) (mag : Q) (d : disk).

Let mdoc_file : string := (mrc_file ++ ".mdoc")%string.
Let blf : string := (path_stem mrc_file ++ "_blended.mrc")%string.

Hypothesis calibrated :
  get_mag mdoc_file d = {| final := d; trace := []; value := Ok (Some mag) |}.
Hypothesis has_mdoc : lookup mdoc_file d <> None.

(** When the stitcher raises, the file is reported as failed with the text
    of the exception, and the folder is left as the stitcher left it. *)
Lemma stitch_raises (d' : disk) (e : exn) :
  stitch pasta mrc_file blf d = {| final := d'; trace := []; value := Raise e |} ->
  process_mrc_file create_h5 pasta mrc_file d =
    {| final := d';
       trace := [Printed ("Error processing " ++ mrc_file ++ ": " ++ exn_str e)];
       value := Ok false |}.
Proof.
  intros Hs. unfold process_mrc_file.
  rewrite (try_except_raise _ _ d d' [] e).
  - reflexivity.
  - rewrite (process_body_calibrated create_h5 pasta mrc_file d mag
               calibrated has_mdoc).
    fold blf. exact (bind_raise _ _ _ _ _ _ Hs).
Qed.

(** When [extractpieces] ends with a non-zero status, [blendmont] is not
    run and nothing is written: the folder is as [extractpieces] left it,
    the failed command is reported, and the file counts as failed. *)
Theorem extractpieces_failure (fcigpath cigpath : string) :
  let command :=
    ("cd " ++ fcigpath ++ "; extractpieces " ++ mrc_file ++ " montage_plf")%string in
  cygwin_path pasta = Some fcigpath ->
  cygwin_path mrc_file = Some cigpath ->
  snd (shell command d) <> 0 ->
  process_mrc_file create_h5 pasta mrc_file d =
    {| final := fst (shell command d);
       trace := [Printed ("Error processing " ++ mrc_file ++ ": Command failed: "
                          ++ command)];
       value := Ok false |}.
Proof.
  intros command Hp Hm Hrc.
  apply (stitch_raises (fst (shell command d))
           (RuntimeError ("Command failed: " ++ command))).
  unfold stitch, windows_to_cygwin_path. rewrite Hp, Hm.
  unfold bind, ret, run_cygwin_command. cbn [value final trace app].
  fold command. destruct (Z.eqb_spec (snd (shell command d)) 0); [contradiction|].
  reflexivity.
Qed.

(** When [blendmont] ends with a non-zero status after [extractpieces]
    succeeded, nothing is written and nothing is cleaned up: the folder is
    as the two commands left it and the failed command is reported. *)
Theorem blendmont_failure (fcigpath cigpath : string) :
  let extract :=
    ("cd " ++ fcigpath ++ "; extractpieces " ++ mrc_file ++ " montage_plf")%string in
  let blend :=
    ("cd " ++ fcigpath ++ "; blendmont -imi " ++ mrc_file
       ++ " -pli montage_plf -imo " ++ blf ++ " -roo MONTAGE_EDGES")%string in
  cygwin_path pasta = Some fcigpath ->
  cygwin_path mrc_file = Some cigpath ->
  snd (shell extract d) = 0 ->
  snd (shell blend (fst (shell extract d))) <> 0 ->
  process_mrc_file create_h5 pasta mrc_file d =
    {| final := fst (shell blend (fst (shell extract d)));
       trace := [Printed ("Error processing " ++ mrc_file ++ ": Command failed: "
                          ++ blend)];
       value := Ok false |}.
Proof.
  intros extract blend Hp Hm Hrc1 Hrc2.
  apply (stitch_raises (fst (shell blend (fst (shell extract d))))
           (RuntimeError ("Command failed: " ++ blend))).
  unfold stitch, windows_to_cygwin_path. rewrite Hp, Hm.
  unfold bind, ret, run_cygwin_command. cbn [value final trace app].
  fold extract. rewrite Hrc1. cbn [Z.eqb value final trace app].
  fold blend.
  destruct (Z.eqb_spec (snd (shell blend (fst (shell extract d)))) 0);
    [contradiction|].
  reflexivity.
Qed.

(** When both commands succeed but leave no blended image, the file is
    reported as failed; nothing is written and nothing is cleaned up. *)
Theorem blended_file_missing (d2 : disk) :
  stitch pasta mrc_file blf d = {| final := d2; trace := []; value := Ok tt |} ->
  lookup blf d2 = None ->
  process_mrc_file create_h5 pasta mrc_file d =
    {| final := d2;
       trace := [Printed ("Error: Blended file " ++ blf ++ " was not created")];
       value := Ok false |}.
Proof.
  intros Hs Hl.
  assert (Hb : process_body create_h5 pasta mrc_file d =
               {| final := d2;
                  trace := [Printed ("Error: Blended file " ++ blf
                                     ++ " was not created")];
                  value := Ok false |}).
  { rewrite (process_body_calibrated create_h5 pasta mrc_file d mag
               calibrated has_mdoc).
    fold blf. rewrite (bind_run _ _ _ _ _ _ Hs). cbn [app].
    unfold convert.
    rewrite (bind_run (path_exists blf) _ d2 d2 [] false)
      by (unfold path_exists; rewrite Hl; reflexivity).
    reflexivity. }
  unfold process_mrc_file.
  rewrite (try_except_value _ _ d false) by (rewrite Hb; reflexivity).
  exact Hb.
Qed.

End StitcherFailures.

Lemma extractpieces_failure_witness :
  let d := [("a.mrc", Binary); ("a.mrc.mdoc", TextFile ["PixelSpacing = 1.5"])] in
  @process_mrc_file toy_no_tools false "dir" "a.mrc" d
  = {| final := d;
       trace := [Printed ("Error processing a.mrc: Command failed: "
                          ++ "cd /cygdrive/c/dir; extractpieces a.mrc montage_plf")];
       value := Ok false |}.
Proof.
  intros d.
  exact (@extractpieces_failure toy_no_tools false "dir" "a.mrc" (15 # 10) d
           eq_refl ltac:(vm_compute; discriminate)
           "/cygdrive/c/dir" "/cygdrive/c/a.mrc" eq_refl eq_refl
           ltac:(vm_compute; discriminate)).
Defined.

Lemma blendmont_failure_witness :
  let d := [("a.mrc", Binary); ("a.mrc.mdoc", TextFile ["PixelSpacing = 1.5"])] in
  let r := @process_mrc_file (toy "a_blended.mrc" None) false "dir" "a.mrc" d in
  value r = Ok false /\
  map fst (final r) =
    ["MONTAGE_EDGES.yef"; "MONTAGE_EDGES.xef"; "montage_plf"; "a.mrc"; "a.mrc.mdoc"].
Proof.
  intros d r. subst r.
  rewrite (@blendmont_failure (toy "a_blended.mrc" None) false "dir" "a.mrc"
             (15 # 10) d eq_refl ltac:(vm_compute; discriminate)
             "/cygdrive/c/dir" "/cygdrive/c/a.mrc" eq_refl eq_refl eq_refl
             ltac:(vm_compute; discriminate)).
  split; reflexivity.
Defined.

Lemma blended_file_missing_witness :
  let d := [("a.mrc", Binary); ("a.mrc.mdoc", TextFile ["PixelSpacing = 1.5"])] in
  let r := @process_mrc_file (toy "elsewhere.mrc" (Some (blank [30; 40])))
             false "dir" "a.mrc" d in
  value r = Ok false /\
  trace r = [Printed "Error: Blended file a_blended.mrc was not created"].
Proof.
  intros d r. subst r.
  rewrite (@blended_file_missing (toy "elsewhere.mrc" (Some (blank [30; 40])))
             false "dir" "a.mrc" (15 # 10) d eq_refl
             ltac:(vm_compute; discriminate)
             [ ("elsewhere.mrc", MrcFile (blank [30; 40]));
               ("MONTAGE_EDGES.yef", Binary);
               ("MONTAGE_EDGES.xef", Binary);
               ("montage_plf", Binary);
               ("a.mrc", Binary);
               ("a.mrc.mdoc", TextFile ["PixelSpacing = 1.5"]) ]
             eq_refl eq_refl).
  split; reflexivity.
Defined.

(** ** Successful runs *)

Lemma bind_ok_inv {A B : Type} (m : M A) (k : A -> M B) (d : disk) (b : B) :
  value (bind m k d) = Ok b ->
  exists a,
    value (m d) = Ok a /\
    value (k a (final (m d))) = Ok b /\
    trace (bind m k d) = trace (m d) ++ trace (k a (final (m d))) /\
    final (bind m k d) = final (k a (final (m d))).
Proof.
  unfold bind. destruct (value (m d)) as [a|e|]; cbn [value final trace];
    intros Hv; try discriminate.
  exists a. repeat split. exact Hv.
Qed.

Lemma prefix_app (p s x : string) :
  prefix p s = true -> prefix p (s ++ x) = true.
Proof.
  revert s. induction p as [|c p IH]; intros s Hp;
    [destruct (s ++ x)%string; reflexivity|].
  destruct s as [|c' s]; [discriminate|]. cbn [prefix String.append] in *.
  destruct (ascii_dec c c'); [apply IH; exact Hp|discriminate].
Qed.

Section Successes.
Context `{Externals}.

Variables (create_h5 : bool) (pasta mrc_file : string) (d : disk).

Let blf : string := (path_stem mrc_file ++ "_blended.mrc")%string.
Let output_tiff : string := with_suffix mrc_file ".ome.tif".

Lemma get_mag_some (path : string) (v : Q) :
  value (get_mag path d) = Ok (Some v) ->
  get_mag path d = {| final := d; trace := []; value := Ok (Some v) |}.
Proof.
  rewrite (get_mag_run path d).
  destruct (lookup path d) as [[a|lines|t|f|x|]|]; try discriminate.
  destruct (find is_key_line lines) as [l|]; [|discriminate].
  destruct (py_float (value_part l)); [|discriminate].
  cbn [value]. intros E. injection E as ->. reflexivity.
Qed.

(** A run that returns [True] is the run of the body of the [try]. *)
Lemma success_is_body :
  value (process_mrc_file create_h5 pasta mrc_file d) = Ok true ->
  process_mrc_file create_h5 pasta mrc_file d
  = process_body create_h5 pasta mrc_file d /\
  value (process_body create_h5 pasta mrc_file d) = Ok true.
Proof.
  unfold process_mrc_file, try_except.
  destruct (value (process_body create_h5 pasta mrc_file d)) as [b|e|] eqn:Hb.
  - intros Hv. split; [reflexivity|]. rewrite <- Hv. symmetry. exact Hb.
  - cbn. discriminate.
  - rewrite Hb. discriminate.
Qed.

(** Whenever a file is processed successfully, the first thing the run
    did to the folder or the log was to write the unreduced [.ome.tif],
    built from a 2D blended image the stitcher had left. *)
Theorem success_writes_tiff_first :
  value (process_mrc_file create_h5 pasta mrc_file d) = Ok true ->
  exists img mag t rest,
    lookup blf (final (stitch pasta mrc_file blf d)) = Some (MrcFile img) /\
    ndim img = 2 /\
    ome_tiff_of blf img mag default_min_size default_tile_size
      default_compression 1 = Ok t /\
    trace (process_mrc_file create_h5 pasta mrc_file d)
    = Wrote output_tiff (TiffFile t) :: rest.
Proof.
  intros Hv. destruct (success_is_body Hv) as [-> Hb]. clear Hv.
  unfold process_body in *. fold blf in Hb |- *.
  apply bind_ok_inv in Hb as (has & _ & Hb & -> & _).
  change (final (path_exists ?p d)) with d in *.
  destruct has; cbn [negb] in *; [|cbn in Hb; discriminate].
  apply bind_ok_inv in Hb as (o & Hg & Hb & -> & _).
  destruct o as [mag|]; [|cbn in Hb; discriminate].
  rewrite (get_mag_some _ mag Hg) in *. cbn [final trace app] in *.
  apply bind_ok_inv in Hb as ([] & _ & Hb & -> & _).
  rewrite (proj2 (stitch_quiet pasta mrc_file blf d)).
  set (d2 := final (stitch pasta mrc_file blf d)) in *.
  unfold convert in *.
  apply bind_ok_inv in Hb as (present & _ & Hb & -> & _).
  change (final (path_exists blf d2)) with d2 in *.
  destruct present; cbn [negb] in *; [|cbn in Hb; discriminate].
  apply bind_ok_inv in Hb as (img0 & Hopen & Hb & -> & _).
  change (final (mrc_open blf d2)) with d2 in *.
  assert (Hl : lookup blf d2 = Some (MrcFile img0)).
  { unfold mrc_open in Hopen. cbn [value] in Hopen.
    destruct (lookup blf d2) as [[a|ls|t|f|x|]|]; try discriminate.
    injection Hopen as ->. reflexivity. }
  apply bind_ok_inv in Hb as (img & _ & Hb & -> & _).
  change (final (lift ?r d2)) with d2 in *.
  apply bind_ok_inv in Hb as (s0 & _ & Hb & -> & _).
  change (final (lift ?r d2)) with d2 in *.
  apply bind_ok_inv in Hb as (s1 & _ & Hb & -> & _).
  change (final (lift ?r d2)) with d2 in *.
  apply bind_ok_inv in Hb as ([] & Hemit & _ & -> & _).
  unfold emit in *. fold output_tiff in Hemit |- *.
  apply bind_ok_inv in Hemit as ([] & Home & _ & -> & _).
  rewrite (create_ome_run blf output_tiff img0 mag default_min_size
             default_tile_size default_compression 1 d2 Hl) in *.
  destruct (ome_tiff_of blf img0 mag default_min_size default_tile_size
              default_compression 1) as [t|e|] eqn:Ht;
    cbn [value] in Home; try discriminate.
  exists img0, mag, t. eexists. split; [exact Hl|].
  split.
  - destruct (Z.eq_dec (ndim img0) 2) as [E|N]; [exact E|].
    rewrite (ome_tiff_of_not_2d _ _ _ _ _ _ _ N) in Ht. discriminate.
  - split; [exact Ht|]. cbn [trace path_exists mrc_open lift app].
    reflexivity.
Qed.

(** A successful run leaves no file whose name starts with [montage_plf]
    or [MONTAGE_EDGES]: an input with such a name is deleted by the
    cleanup, together with its descriptor. *)
Theorem temp_named_input_deleted :
  value (process_mrc_file create_h5 pasta mrc_file d) = Ok true ->
  prefix "montage_plf" mrc_file = true \/ prefix "MONTAGE_EDGES" mrc_file = true ->
  lookup mrc_file (final (process_mrc_file create_h5 pasta mrc_file d)) = None /\
  lookup (mrc_file ++ ".mdoc")
    (final (process_mrc_file create_h5 pasta mrc_file d)) = None.
Proof.
  intros Hv Hp. destruct (success_is_body Hv) as [-> Hb]. clear Hv.
  destruct (body_verdict create_h5 pasta mrc_file d) as (_ & _ & Hok).
  destruct (Hok Hb) as (em & rm & _ & _ & Hcl).
  assert (Hgone : forall n,
            prefix "montage_plf" n = true \/ prefix "MONTAGE_EDGES" n = true ->
            lookup n (final (process_body create_h5 pasta mrc_file d)) = None).
  { intros n Hn.
    destruct (lookup n (final (process_body create_h5 pasta mrc_file d)))
      as [c|] eqn:Hl; [|reflexivity].
    destruct (Hcl n ltac:(rewrite Hl; discriminate)) as (He & Hpl & _).
    destruct Hn; congruence. }
  split; apply Hgone.
  - exact Hp.
  - destruct Hp as [Hp|Hp]; [left|right]; apply prefix_app; exact Hp.
Qed.

End Successes.

Lemma success_writes_tiff_first_witness :
  let E := toy "a_blended.mrc" (Some (blank [30; 40])) in
  let d := [("a.mrc", Binary); ("a.mrc.mdoc", TextFile ["PixelSpacing = 1.5"])] in
  exists t rest,
    trace (@process_mrc_file E true "dir" "a.mrc" d)
    = Wrote "a.ome.tif" (TiffFile t) :: rest.
Proof.
  intros E d.
  destruct (@success_writes_tiff_first E true "dir" "a.mrc" d eq_refl)
    as (img & mag & t & rest & _ & _ & _ & Htr).
  exists t, rest. exact Htr.
Defined.

Lemma temp_named_input_deleted_witness :
  let E := toy "montage_plf7_blended.mrc" (Some (blank [30; 40])) in
  let d := [ ("montage_plf7.mrc", Binary);
             ("montage_plf7.mrc.mdoc", TextFile ["PixelSpacing = 1.5"]) ] in
  value (@process_mrc_file E false "dir" "montage_plf7.mrc" d) = Ok true /\
  lookup "montage_plf7.mrc"
    (final (@process_mrc_file E false "dir" "montage_plf7.mrc" d)) = None.
Proof.
  intros E d. split; [reflexivity|].
  apply (@temp_named_input_deleted E false "dir" "montage_plf7.mrc" d
           eq_refl (or_introl eq_refl)).
Defined.

(** ** Images that are not large *)

Section SmallImages.
Context `{Externals}.

Variables (create_h5 : bool) (pasta mrc_file : string) (mag : Q)
          (img : ndarray) (h w : Z) (d d2 : disk).

Let mdoc_file : string := (mrc_file ++ ".mdoc")%string.
Let blf : string := (path_stem mrc_file ++ "_blended.mrc")%string.
Let output_tiff : string := (path_stem mrc_file ++ ".ome.tif")%string.


End SmallImages.


(** ** What the cleanup removes *)


(** ** The batch *)

Section Batch.
Context `{Externals}.

Lemma batch_loop_bounds (create_h5 : bool) (pasta : string)
    (mrc_files : list string) :
  forall (successful : Z) (d : disk),
    exists count,
      value (batch_loop create_h5 pasta mrc_files successful d) = Ok count /\
      successful <= count <= successful + Z.of_nat (List.length mrc_files).
Proof.
  induction mrc_files as [|f rest IH]; intros s d.
  - exists s. split; [reflexivity|]. cbn [List.length]. lia.
  - destruct (process_mrc_file_returns create_h5 pasta f d) as [ok Hok].
    destruct (IH (if ok then s + 1 else s)
                 (final (process_mrc_file create_h5 pasta f d)))
      as (c & Hc & Hb).
    exists c. split.
    + cbn [batch_loop].
      rewrite (bind_value (process_mrc_file create_h5 pasta f)
                 (fun ok : bool =>
                    batch_loop create_h5 pasta rest (if ok then s + 1 else s))
                 d ok Hok).
      exact Hc.
    + cbn [List.length]. destruct ok; lia.
Qed.

(** A batch never raises.  Without a folder, or without any input file, it
    prints one line and touches nothing.  Otherwise it goes through every
    file and ends by printing the summary, in which the number of
    successes lies between 0 and the number of files. *)
Theorem run_batch_spec (create_h5 : bool) (folder : string)
    (mrc_files : list string) (d : disk) :
  let r := run_batch create_h5 folder mrc_files d in
  value r = Ok tt /\
  match folder, mrc_files with
  | EmptyString, _ =>
      r = {| final := d; trace := [Printed "Please select a folder."];
             value := Ok tt |}
  | _, [] =>
      r = {| final := d;
             trace := [Printed "No .mrc files found in the selected folder."];
             value := Ok tt |}
  | _, _ =>
      exists count,
        value (batch_loop create_h5 folder mrc_files 0 d) = Ok count /\
        0 <= count <= Z.of_nat (List.length mrc_files) /\
        trace r =
          trace (batch_loop create_h5 folder mrc_files 0 d) ++
          [Printed (summary count (Z.of_nat (List.length mrc_files)))]
  end.
Proof.
  intros r. subst r. unfold run_batch.
  destruct folder as [|c folder]; [split; reflexivity|].
  destruct mrc_files as [|f rest]; [split; reflexivity|].
  destruct (batch_loop_bounds create_h5 (String c folder) (f :: rest) 0 d)
    as (count & Hc & Hb).
  unfold bind. rewrite Hc. cbn [value final trace print].
  split; [reflexivity|]. exists count.
  split; [reflexivity|]. split; [lia|reflexivity].
Qed.

End Batch.

(** ** The two containers agree *)


